(** * A command bot on discord.py: the handlers of bot.py and their dispatch

    The development follows bot.py top to bottom.  [Py] holds the Python
    builtins the handlers rely on (int and float conversion and formatting,
    IEEE binary64 arithmetic, exceptions), [Discord] the data the handlers
    read and the replies they send, [Commands] the command framework that
    [bot.process_commands] runs, and [Bot] the program itself. *)

From Stdlib Require Import ZArith String Ascii List Lia Bool.
From Stdlib Require Import DecimalString DecimalZ DecimalPos SpecFloat.
From stdpp Require Import gmap strings.

Open Scope Z_scope.

(* ===================================================================== *)
(** ** Python builtins *)
(* ===================================================================== *)

Module Py.

(** Exceptions a handler body of bot.py can raise. *)
Inductive exn : Type :=
  | ZeroDivisionError
  | AttributeError
  | ValueError
  | OverflowError.

(** *** Characters and strings *)

Definition code (c : ascii) : N := N_of_ascii c.

(** [str.isspace] on the ASCII range: tab to carriage return, the four
    separators 0x1c to 0x1f, and the space. *)
Definition isspace (c : ascii) : bool :=
  ((9 <=? code c) && (code c <=? 13) || (28 <=? code c) && (code c <=? 32))%N.

(** The whitespace that [int] and [float] strip from an ASCII string. *)
Definition c_isspace (c : ascii) : bool :=
  ((9 <=? code c) && (code c <=? 13) || (code c =? 32))%N.

Definition digit_value (c : ascii) : option Z :=
  if ((48 <=? code c) && (code c <=? 57))%N then Some (Z.of_N (code c) - 48)
  else None.

Definition isdigit (c : ascii) : bool :=
  match digit_value c with Some _ => true | None => false end.

Definition lower (c : ascii) : ascii :=
  if ((65 <=? code c) && (code c <=? 90))%N then ascii_of_N (code c + 32) else c.

Fixpoint lower_str (s : string) : string :=
  match s with
  | EmptyString => EmptyString
  | String c s' => String (lower c) (lower_str s')
  end.

Fixpoint lstrip (s : string) : string :=
  match s with
  | String c s' => if c_isspace c then lstrip s' else s
  | EmptyString => EmptyString
  end.

Fixpoint rstrip (s : string) : string :=
  match s with
  | String c s' =>
      match rstrip s' with
      | EmptyString => if c_isspace c then EmptyString else String c EmptyString
      | r => String c r
      end
  | EmptyString => EmptyString
  end.

Definition strip (s : string) : string := rstrip (lstrip s).

Fixpoint repeat_char (n : nat) (c : ascii) : string :=
  match n with
  | O => EmptyString
  | S n' => String c (repeat_char n' c)
  end.

(** [s.zfill(width)] for a string without sign. *)
Definition zfill (width : nat) (s : string) : string :=
  repeat_char (width - String.length s) "0" +:+ s.

Fixpoint all_chars (p : ascii -> bool) (s : string) : bool :=
  match s with
  | EmptyString => true
  | String c s' => p c && all_chars p s'
  end.

(** *** Integers *)

(** [str(n)] for an int: decimal digits, a minus sign when negative. *)
Definition str_int (z : Z) : string := NilZero.string_of_int (Z.to_int z).

(** The digits after the first one of a base-10 literal: a digit, or an
    underscore followed by a digit, until the end of the string. *)
Fixpoint int_digits (acc : Z) (s : string) : option Z :=
  match s with
  | EmptyString => Some acc
  | String c s' =>
      if Ascii.eqb c "_" then
        match s' with
        | String d s'' =>
            match digit_value d with
            | Some v => int_digits (10 * acc + v) s''
            | None => None
            end
        | EmptyString => None
        end
      else
        match digit_value c with
        | Some v => int_digits (10 * acc + v) s'
        | None => None
        end
  end.

Definition split_sign (s : string) : bool * string :=
  match s with
  | String "-" r => (true, r)
  | String "+" r => (false, r)
  | _ => (false, s)
  end.

(** [int(s)] on an ASCII string; [None] stands for [ValueError].  The
    decimal digits of other scripts, which [int] reads as well, are not
    covered: statements about rejected tokens assume ASCII. *)
Definition int_of_str (s : string) : option Z :=
  let '(neg, body) := split_sign (strip s) in
  match body with
  | String d r =>
      match digit_value d with
      | Some v =>
          match int_digits v r with
          | Some n => Some (if neg then - n else n)
          | None => None
          end
      | None => None
      end
  | EmptyString => None
  end.

(** *** Floats: IEEE 754 binary64 *)

Definition float : Type := spec_float.
Definition float_prec : Z := 53.
Definition float_emax : Z := 1024.

Definition float_zero : float := S754_zero false.

(** [x == y] *)
Definition float_eqb (x y : float) : bool := SFeqb x y.

(** [x * y] *)
Definition float_mul (x y : float) : float := SFmul float_prec float_emax x y.

(** [x / y]: a zero divisor raises, everything else follows IEEE 754. *)
Definition float_truediv (x y : float) : exn + float :=
  if float_eqb y float_zero then inl ZeroDivisionError
  else inr (SFdiv float_prec float_emax x y).

Definition float_of_int (z : Z) : float :=
  binary_normalize float_prec float_emax z 0 false.

Definition round_half_even (n d : Z) : Z :=
  let q := n / d in
  match 2 * (n mod d) ?= d with
  | Lt => q
  | Gt => q + 1
  | Eq => if Z.even q then q else q + 1
  end.

(** The exact decimal expansion of [m * 2^e]: the pair [(M, s)] with
    [m * 2^e = M / 10^s]. *)
Definition decimal_of_binary (m e : Z) : Z * Z :=
  let s := Z.max 0 (- e) in
  (m * 2 ^ (e + s) * 5 ^ s, s).

(** [round(x)] with one argument: the nearest int, ties to even. *)
Definition round_float (x : float) : exn + Z :=
  match x with
  | S754_nan => inl ValueError
  | S754_infinity _ => inl OverflowError
  | S754_zero _ => inr 0
  | S754_finite s m e =>
      let '(M, sc) := decimal_of_binary (Zpos m) e in
      let r := round_half_even M (10 ^ sc) in
      inr (if s then - r else r)
  end.

Definition sign_str (s : bool) : string := if s then "-" else "".

(** [format(x, '.<precision>f')]: correctly rounded, ties to even. *)
Definition format_fixed (precision : nat) (x : float) : string :=
  match x with
  | S754_nan => "nan"
  | S754_infinity s => sign_str s +:+ "inf"
  | S754_zero s =>
      sign_str s +:+ "0" +:+
      match precision with
      | O => ""
      | _ => "." +:+ repeat_char precision "0"
      end
  | S754_finite s m e =>
      let '(M, sc) := decimal_of_binary (Zpos m) e in
      let p := Z.of_nat precision in
      let R := round_half_even (M * 10 ^ p) (10 ^ sc) in
      sign_str s +:+ str_int (R / 10 ^ p) +:+
      match precision with
      | O => ""
      | _ => "." +:+ zfill precision (str_int (R mod 10 ^ p))
      end
  end.

(** Number of decimal digits of a positive integer. *)
Definition ndigits (z : Z) : Z := Z.of_nat (String.length (str_int z)).

Definition in_interval (closed : bool) (lo hi v : Z) : bool :=
  if closed then (lo <=? v) && (v <=? hi) else (lo <? v) && (v <? hi).

(** The shortest decimal that reads back as the float: for [n = 1, 2, ...]
    significant digits, the two [n]-digit neighbours of [x] are tried
    against the rounding interval [lo .. hi] of the float; the first hit
    wins, the nearer one when both hit.  All numbers are integers on a
    common power-of-ten scale, [nd] is the digit count of [x]; the result
    [(c, k)] stands for [c * 10^k] on that scale. *)
Fixpoint shortest_search (fuel : nat) (n : Z) (closed : bool)
    (lo x hi nd : Z) : Z * Z :=
  match fuel with
  | O => (x, 0)
  | S fuel' =>
      if nd <=? n then (x, 0)
      else
        let u := 10 ^ (nd - n) in
        let c_lo := x / u in
        let c_hi := c_lo + 1 in
        match in_interval closed lo hi (c_lo * u),
              in_interval closed lo hi (c_hi * u) with
        | true, true =>
            match (x - c_lo * u) ?= (c_hi * u - x) with
            | Lt => (c_lo, nd - n)
            | Gt => (c_hi, nd - n)
            | Eq => if Z.even c_lo then (c_lo, nd - n) else (c_hi, nd - n)
            end
        | true, false => (c_lo, nd - n)
        | false, true => (c_hi, nd - n)
        | false, false => shortest_search fuel' (n + 1) closed lo x hi nd
        end
  end.

Fixpoint rstrip_zeros (s : string) : string :=
  match s with
  | String c s' =>
      match rstrip_zeros s' with
      | EmptyString => if Ascii.eqb c "0" then EmptyString else String c EmptyString
      | r => String c r
      end
  | EmptyString => EmptyString
  end.

(** Digits and decimal point of the shortest repr of [m * 2^e]: the value
    is [0.digits * 10^decpt].  The rounding interval ends half way to the
    neighbouring floats (a quarter of the gap below a power of two) and is
    closed when the mantissa is even. *)
Definition shortest_digits (m : positive) (e : Z) : string * Z :=
  let s := Z.max 0 (2 - e) in
  let scaled := fun c => c * 2 ^ (e - 2 + s) * 5 ^ s in
  let mz := Zpos m in
  let below :=
    if (mz =? 2 ^ (float_prec - 1)) && (3 - float_emax - float_prec <? e)
    then 1 else 2 in
  let x := scaled (4 * mz) in
  let '(c, k) :=
    shortest_search 17 1 (Z.even mz)
      (scaled (4 * mz - below)) x (scaled (4 * mz + 2)) (ndigits x) in
  let ds := str_int c in
  (rstrip_zeros ds, Z.of_nat (String.length ds) + k - s).

Definition format_exponent (ex : Z) : string :=
  (if ex <? 0 then "-" else "+") +:+ zfill 2 (str_int (Z.abs ex)).

Definition string_from (n : nat) (s : string) : string :=
  String.substring n (String.length s - n) s.

(** [str(x)] and [repr(x)] of a float, which an f-string field without a
    format spec uses: shortest digits, exponent form when the decimal point
    falls left of 0.0001 or right of 16 digits. *)
Definition float_repr (x : float) : string :=
  match x with
  | S754_nan => "nan"
  | S754_infinity s => sign_str s +:+ "inf"
  | S754_zero s => sign_str s +:+ "0.0"
  | S754_finite s m e =>
      let '(ds, decpt) := shortest_digits m e in
      let n := Z.of_nat (String.length ds) in
      sign_str s +:+
      (if (decpt <=? -4) || (16 <? decpt) then
         String.substring 0 1 ds +:+
         (if 1 <? n then "." +:+ string_from 1 ds else "") +:+
         "e" +:+ format_exponent (decpt - 1)
       else if decpt <=? 0 then
         "0." +:+ repeat_char (Z.to_nat (- decpt)) "0" +:+ ds
       else if n <=? decpt then
         ds +:+ repeat_char (Z.to_nat (decpt - n)) "0" +:+ ".0"
       else
         String.substring 0 (Z.to_nat decpt) ds +:+ "." +:+
         string_from (Z.to_nat decpt) ds)
  end.

(** Underscores in a numeric literal: each one follows a digit and
    precedes a digit. *)
Fixpoint drop_underscores (prev : ascii) (s : string) : option string :=
  match s with
  | EmptyString => if Ascii.eqb prev "_" then None else Some EmptyString
  | String c s' =>
      if Ascii.eqb c "_" then
        if isdigit prev then drop_underscores c s' else None
      else if Ascii.eqb prev "_" && negb (isdigit c) then None
      else
        match drop_underscores c s' with
        | Some r => Some (String c r)
        | None => None
        end
  end.

(** A run of digits: its value, its length and what follows. *)
Fixpoint digit_run (acc count : Z) (s : string) : Z * Z * string :=
  match s with
  | String c s' =>
      match digit_value c with
      | Some v => digit_run (10 * acc + v) (count + 1) s'
      | None => (acc, count, s)
      end
  | EmptyString => (acc, count, s)
  end.

(** The binary64 nearest to [d * 10^e], ties to even.  Beyond 10^400 the
    result is an infinity, below 10^-400 a zero. *)
Definition float_of_decimal (neg : bool) (d e : Z) : float :=
  match d with
  | Zpos p =>
      if 400 <? e then S754_infinity neg
      else if ndigits d + e <? -400 then S754_zero neg
      else if 0 <=? e then
        binary_round float_prec float_emax neg (Z.to_pos (d * 10 ^ e)) 0
      else
        let '(mz, ez, lz) :=
          SFdiv_core_binary float_prec float_emax d 0 (10 ^ (- e)) 0 in
        binary_round_aux float_prec float_emax neg mz ez lz
  | _ => S754_zero neg
  end.

Definition parse_exponent (s : string) : option Z :=
  match s with
  | EmptyString => Some 0
  | String c r =>
      if Ascii.eqb (lower c) "e" then
        let '(neg, ds) := split_sign r in
        match digit_run 0 0 ds with
        | (v, n, EmptyString) =>
            if 0 <? n then Some (if neg then - v else v) else None
        | _ => None
        end
      else None
  end.

(** [float(s)] on an ASCII string; [None] stands for [ValueError]. *)
Definition float_of_str (s : string) : option float :=
  match drop_underscores " " (strip s) with
  | None => None
  | Some t =>
      let '(neg, body) := split_sign t in
      let name := lower_str body in
      if String.eqb name "inf" || String.eqb name "infinity" then
        Some (S754_infinity neg)
      else if String.eqb name "nan" then Some S754_nan
      else
        let '(ip, n1, r1) := digit_run 0 0 body in
        let '(d, n2, r2) :=
          match r1 with
          | String "." r => digit_run ip 0 r
          | _ => (ip, 0, r1)
          end in
        if n1 + n2 =? 0 then None
        else
          match parse_exponent r2 with
          | Some ex => Some (float_of_decimal neg d (ex - n2))
          | None => None
          end
  end.


(** Exactly [n] characters, all of them digits. *)
Definition is_digits (n : nat) (s : string) : bool :=
  Nat.eqb (String.length s) n && all_chars isdigit s.

Definition is_finite (x : float) : bool :=
  match x with
  | S754_zero _ | S754_finite _ _ _ => true
  | S754_infinity _ | S754_nan => false
  end.

End Py.

(** [datetime]: the calendar fields that [strftime("%Y-%m-%d")] reads. *)
Module Datetime.

Record datetime : Type := { year : Z; month : Z; day : Z }.

(** [d.strftime("%Y-%m-%d")]: the year on four digits, month and day on
    two, zero padded. *)
Definition strftime_Ymd (d : datetime) : string :=
  Py.zfill 4 (Py.str_int (year d)) +:+ "-" +:+
  Py.zfill 2 (Py.str_int (month d)) +:+ "-" +:+
  Py.zfill 2 (Py.str_int (day d)).

(** The pattern YYYY-MM-DD: four digits, two digits, two digits, with
    dashes between. *)
Definition is_iso_date (s : string) : bool :=
  match s with
  | String y1 (String y2 (String y3 (String y4 (String "-"
      (String m1 (String m2 (String "-" (String d1 (String d2 EmptyString))))))))) =>
      forallb Py.isdigit [y1; y2; y3; y4; m1; m2; d1; d2]
  | _ => false
  end.

(** The dates with a year of four digits (below 1000 the padding of
    [%Y] depends on the platform; days of the month bounded by 31, the
    month lengths play no part below). *)
Definition valid (d : datetime) : bool :=
  (1000 <=? year d) && (year d <=? 9999) &&
  (1 <=? month d) && (month d <=? 12) &&
  (1 <=? day d) && (day d <=? 31).

End Datetime.

(* ===================================================================== *)
(** ** The data of the discord library that bot.py reads and writes *)
(* ===================================================================== *)

Module Discord.

(** Users compare by id; [user_bot] is the [bot] flag of an account. *)
Record User : Type := { user_id : Z; user_bot : bool }.

Record Member : Type := { mention : string }.

Record Asset : Type := { url : string }.

Record Guild : Type := {
  name : string;
  id : Z;
  owner : option Member;
  member_count : Z;
  created_at : Datetime.datetime;
  icon : option Asset
}.

(** An incoming message; [guild] is [None] in a private channel. *)
Record Message : Type := {
  author : User;
  channel : Z;
  guild : option Guild;
  content : string
}.

(** [message.author == bot.user]; [bot.user] is [None] before login. *)
Definition user_eqb (u : User) (me : option User) : bool :=
  match me with
  | Some v => user_id u =? user_id v
  | None => false
  end.

Record EmbedField : Type := {
  field_name : string;
  field_value : string;
  field_inline : bool
}.

Record Embed : Type := {
  title : string;
  description : string;
  color : Z;
  thumbnail : option string;
  fields : list EmbedField
}.

(** [discord.Embed(title=..., description=..., color=...)] *)
Definition new_embed (t d : string) (c : Z) : Embed :=
  {| title := t; description := d; color := c; thumbnail := None; fields := [] |}.

(** [embed.set_thumbnail(url=...)]: [None] leaves the embed without one. *)
Definition set_thumbnail (e : Embed) (u : option string) : Embed :=
  {| title := title e; description := description e; color := color e;
     thumbnail := u; fields := fields e |}.

(** [embed.add_field(name=..., value=..., inline=...)]: appended after the
    fields already there; the value is stored as its [str]. *)
Definition add_field (e : Embed) (n v : string) (i : bool) : Embed :=
  {| title := title e; description := description e; color := color e;
     thumbnail := thumbnail e;
     fields := fields e ++ [ {| field_name := n; field_value := v; field_inline := i |} ] |}.

Definition Color_blue : Z := 0x3498db.
Definition Color_green : Z := 0x2ecc71.

(** The value of the first field with the given name. *)
Fixpoint lookup_field (n : string) (fs : list EmbedField) : option string :=
  match fs with
  | [] => None
  | f :: fs' => if String.eqb (field_name f) n then Some (field_value f) else lookup_field n fs'
  end.

(** What a handler sends to a channel. *)
Inductive Reply : Type :=
  | PlainText (text : string)
  | StructuredEmbed (embed : Embed).

(** The state of the bot object that the handlers read. *)
Record Client : Type := {
  user : option User;
  guilds : list Guild;
  latency : Py.float
}.

End Discord.

(* ===================================================================== *)
(** ** The command framework behind [bot.process_commands] *)
(* ===================================================================== *)

Module Commands.
Import Discord.

(** *** Errors of the framework *)

(** Modelled from the spec: the error kinds of the command framework
    (discord.ext.commands, a library that is not under src/).  The spec
    names the binding errors [MissingRequiredArgument] and [BadArgument];
    the others are the framework classes around them, with the subclass
    relation that [isinstance] in [divide_error] consults. *)
Inductive ErrorClass : Type :=
  | CommandError
  | ConversionError
  | UserInputError
  | MissingRequiredArgument
  | TooManyArguments
  | BadArgument
  | BadBoolArgument
  | MemberNotFound
  | BadUnionArgument
  | BadLiteralArgument
  | ArgumentParsingError
  | UnexpectedQuoteError
  | InvalidEndOfQuotedStringError
  | ExpectedClosingQuoteError
  | CommandNotFound
  | CheckFailure
  | DisabledCommand
  | CommandInvokeError
  | CommandOnCooldown
  | MaxConcurrencyReached.

#[global] Instance ErrorClass_eq_dec : EqDecision ErrorClass.
Proof. solve_decision. Defined.

(** The direct base class; [CommandError] is the root. *)
Definition base (c : ErrorClass) : option ErrorClass :=
  match c with
  | CommandError => None
  | UserInputError | ConversionError | CommandNotFound | CheckFailure
  | DisabledCommand | CommandInvokeError | CommandOnCooldown
  | MaxConcurrencyReached => Some CommandError
  | MissingRequiredArgument | TooManyArguments | BadArgument
  | BadUnionArgument | BadLiteralArgument | ArgumentParsingError =>
      Some UserInputError
  | BadBoolArgument | MemberNotFound => Some BadArgument
  | UnexpectedQuoteError | InvalidEndOfQuotedStringError
  | ExpectedClosingQuoteError => Some ArgumentParsingError
  end.

Fixpoint subclass_within (depth : nat) (c d : ErrorClass) : bool :=
  bool_decide (c = d) ||
  match depth with
  | O => false
  | S depth' =>
      match base c with
      | Some b => subclass_within depth' b d
      | None => false
      end
  end.

(** [issubclass(c, d)]; no chain of bases is longer than three. *)
Definition issubclass (c d : ErrorClass) : bool := subclass_within 3 c d.

(** A raised framework error: its class, the parameter it names (binding
    errors), the invoked name (unknown command) or the exception a
    handler body raised ([CommandInvokeError]). *)
Record command_error : Type := {
  error_class : ErrorClass;
  error_param : option string;
  error_original : option Py.exn
}.

(** [isinstance(error, cls)] *)
Definition isinstance (e : command_error) (cls : ErrorClass) : bool :=
  issubclass (error_class e) cls.

Definition missing_required_argument (p : string) : command_error :=
  {| error_class := MissingRequiredArgument; error_param := Some p; error_original := None |}.

Definition bad_argument (p : string) : command_error :=
  {| error_class := BadArgument; error_param := Some p; error_original := None |}.

Definition command_not_found (invoked : string) : command_error :=
  {| error_class := CommandNotFound; error_param := Some invoked; error_original := None |}.

Definition command_invoke_error (e : Py.exn) : command_error :=
  {| error_class := CommandInvokeError; error_param := None; error_original := Some e |}.

(** *** Effects *)

(** What the program does to the outside: a reply sent to a channel, a
    line printed on the console, an error the framework logs, the
    connection to the gateway. *)
Inductive Effect : Type :=
  | Send (channel : Z) (reply : Reply)
  | Print (line : string)
  | LogError (e : command_error)
  | Connect (token : string).

(** A run of a coroutine: the effects it performed in order, and the
    exception it raised or the value it returned. *)
Definition Run (A : Type) : Type := (list Effect * (Py.exn + A))%type.

Definition ret {A : Type} (a : A) : Run A := ([], inr a).

Definition raise {A : Type} (e : Py.exn) : Run A := ([], inl e).

Definition bind {A B : Type} (m : Run A) (k : A -> Run B) : Run B :=
  match m with
  | (done, inr a) => let '(more, r) := k a in (done ++ more, r)
  | (done, inl e) => (done, inl e)
  end.

(** A Python expression that raises or yields a value, without effect. *)
Definition eval {A : Type} (r : Py.exn + A) : Run A := ([], r).

Definition emit (e : Effect) : Run unit := ([e], inr tt).

(** [try: m except Exception as e: handler(e)] *)
Definition catch {A : Type} (m : Run A) (handler : Py.exn -> Run A) : Run A :=
  match m with
  | (done, inl e) => let '(more, r) := handler e in (done ++ more, r)
  | ok => ok
  end.

(** [try: m finally: last] *)
Definition finally {A : Type} (m : Run A) (last : Run unit) : Run A :=
  let '(done, r) := m in
  let '(more, r') := last in
  (done ++ more, match r' with inl e => inl e | inr _ => r end).

Declare Scope run_scope.
Delimit Scope run_scope with run.
Notation "x <- m ;; k" := (bind m (fun x => k))
  (at level 100, m at next level, right associativity) : run_scope.
Notation "m ;; k" := (bind m (fun _ => k))
  (at level 100, right associativity) : run_scope.
Open Scope run_scope.

(** The replies among the effects, with their channels. *)
Definition sends (t : list Effect) : list (Z * Reply) :=
  omap (fun e => match e with Send c r => Some (c, r) | _ => None end) t.

(** *** Invocation context *)

(** The [ctx] a handler receives: the bot object and the invoking
    message. *)
Record Ctx : Type := { bot : Client; message : Message }.

(** [ctx.guild] *)
Definition ctx_guild (ctx : Ctx) : option Guild := guild (message ctx).

(** [await ctx.send(text)]: a plain text reply to the invoking channel. *)
Definition send (ctx : Ctx) (text : string) : Run unit :=
  emit (Send (channel (message ctx)) (PlainText text)).

(** [await ctx.send(embed=embed)] *)
Definition send_embed (ctx : Ctx) (embed : Embed) : Run unit :=
  emit (Send (channel (message ctx)) (StructuredEmbed embed)).

(** *** Scanning the message text *)

(** Modelled from the spec: the view on the message text that the
    framework (not under src/) scans, kept as the text not yet read.
    [skip_string] reads the prefix (step 3: the text begins with the
    prefix). *)
Fixpoint skip_string (prefix view : string) : option string :=
  match prefix, view with
  | EmptyString, _ => Some view
  | String p prefix', String c view' =>
      if Ascii.eqb p c then skip_string prefix' view' else None
  | String _ _, EmptyString => None
  end.

(** Modelled from the spec: reading one whitespace-delimited token of the
    framework's view (not under src/; step 3): the characters up to the
    next whitespace, and the text after them. *)
Fixpoint get_word (view : string) : string * string :=
  match view with
  | EmptyString => (EmptyString, EmptyString)
  | String c view' =>
      if Py.isspace c then (EmptyString, view)
      else let '(w, rest) := get_word view' in (String c w, rest)
  end.

(** Modelled from the spec: skipping the whitespace between tokens in the
    framework's view (not under src/; step 3). *)
Fixpoint skip_ws (view : string) : string :=
  match view with
  | String c view' => if Py.isspace c then skip_ws view' else view
  | EmptyString => EmptyString
  end.

(** A token: not empty and free of whitespace. *)
Definition is_token (t : string) : bool :=
  match t with
  | EmptyString => false
  | _ => Py.all_chars (fun c => negb (Py.isspace c)) t
  end.

(** Text that a token can stand in front of: empty, or beginning with
    whitespace. *)
Definition at_boundary (rest : string) : bool :=
  match rest with
  | EmptyString => true
  | String c _ => Py.isspace c
  end.

(** The command name token of a message text: what follows the prefix up
    to the next whitespace; [None] when the text lacks the prefix. *)
Definition invoked_with (command_prefix text : string) : option string :=
  match skip_string command_prefix text with
  | Some view => Some (fst (get_word view))
  | None => None
  end.

(** *** Commands and argument binding *)

(** The annotation of a handler parameter: none (the token itself),
    [int] or [float]. *)
Inductive Converter : Type := to_str | to_int | to_float.

Definition arg_type (c : Converter) : Type :=
  match c with
  | to_str => string
  | to_int => Z
  | to_float => Py.float
  end.

(** Modelled from the spec: coercion of a token to the parameter's type
    by the framework (not under src/; step 4), which calls the annotation
    on the token: [int(token)], [float(token)]; [None] is a failed
    coercion. *)
Definition convert (c : Converter) (argument : string) : option (arg_type c) :=
  match c with
  | to_str => Some argument
  | to_int => Py.int_of_str argument
  | to_float => Py.float_of_str argument
  end.

Record Param : Type := { param_name : string; converter : Converter }.

(** The type of a handler after [ctx], from its declared parameters. *)
Fixpoint callback_type (ps : list Param) : Type :=
  match ps with
  | [] => Run unit
  | p :: ps' => arg_type (converter p) -> callback_type ps'
  end.

(** A registered command: its name, its declared parameters, the handler
    and the error handler attached with [@<command>.error], if any. *)
Record Command : Type := {
  cmd_name : string;
  params : list Param;
  callback : Ctx -> callback_type params;
  on_error : option (Ctx -> command_error -> Run unit)
}.

(** Modelled from the spec: argument binding by the framework (not under
    src/; step 4).  For each declared parameter in order the next token
    is read and coerced; a missing token is [MissingRequiredArgument], a
    failed coercion [BadArgument], both naming the parameter; tokens left
    over are ignored.  The handler body is reached only when every
    parameter is bound. *)
Fixpoint parse_arguments (ps : list Param) (view : string)
    : callback_type ps -> command_error + Run unit :=
  match ps with
  | [] => fun body => inr body
  | p :: ps' => fun k =>
      match skip_ws view with
      | EmptyString => inl (missing_required_argument (param_name p))
      | unread =>
          let '(argument, rest) := get_word unread in
          match convert (converter p) argument with
          | Some v => parse_arguments ps' rest (k v)
          | None => inl (bad_argument (param_name p))
          end
      end
  end.

(** Modelled from the spec: the framework's default treatment of a
    command error (not under src/; step 6): nothing is sent.  The error
    is logged unless the command has an error handler of its own. *)
Definition on_command_error (command : option Command) (e : command_error) : Run unit :=
  match command with
  | Some c =>
      match on_error c with
      | Some _ => ret tt
      | None => emit (LogError e)
      end
  | None => emit (LogError e)
  end.

(** Modelled from the spec: error delivery by the framework (not under
    src/; step 6): the command's own error handler when it has one, then
    the default treatment. *)
Definition dispatch_error (c : Command) (ctx : Ctx) (e : command_error) : Run unit :=
  finally
    match on_error c with
    | Some handler => handler ctx e
    | None => ret tt
    end
    (on_command_error (Some c) e).

(** Modelled from the spec: invocation of a matched command by the
    framework (not under src/; steps 4 to 6).  Arguments are bound, then
    the handler runs; a binding error, or an exception out of the handler
    body (wrapped as [CommandInvokeError]), goes to error delivery. *)
Definition invoke (c : Command) (ctx : Ctx) (view : string) : Run unit :=
  match parse_arguments (params c) view (callback c ctx) with
  | inl e => dispatch_error c ctx e
  | inr body => catch body (fun e => dispatch_error c ctx (command_invoke_error e))
  end.

(** Modelled from the spec: [bot.process_commands(message)] of the
    framework (not under src/; steps 3 to 6).  Messages of bot accounts
    are not processed.  A text that begins with the prefix is split into
    the command name token and the rest; the name is looked up in the
    registry by exact match; an unknown name yields no reply, the
    framework logs [CommandNotFound] when the name is not empty. *)
Definition process_commands (all_commands : gmap string Command)
    (command_prefix : string) (b : Client) (m : Message) : Run unit :=
  if user_bot (author m) then ret tt
  else
    match skip_string command_prefix (content m) with
    | None => ret tt
    | Some view =>
        let '(invoker, rest) := get_word view in
        match all_commands !! invoker with
        | Some c => invoke c {| bot := b; message := m |} rest
        | None =>
            match invoker with
            | EmptyString => ret tt
            | _ => on_command_error None (command_not_found invoker)
            end
        end
    end.

End Commands.

(* ===================================================================== *)
(** ** bot.py *)
(* ===================================================================== *)

Module Bot.
Import Discord Commands.

Section Program.

(** The handler of the [help] command that [commands.Bot(...)] registers
    on its own; the page it sends is the framework's business. *)
Variable help_callback : Ctx -> Run unit.

(** [commands.Bot(command_prefix='!', intents=intents)] *)
Definition command_prefix : string := "!".

Definition help_command : Command :=
  {| cmd_name := "help"; params := []; callback := help_callback; on_error := None |}.

(** [@bot.command(name=...)] on a handler with the given parameters. *)
Definition command (n : string) (ps : list Param)
    (f : Ctx -> callback_type ps) : Command :=
  {| cmd_name := n; params := ps; callback := f; on_error := None |}.

(** [@<command>.error] *)
Definition error (c : Command) (handler : Ctx -> command_error -> Run unit) : Command :=
  {| cmd_name := cmd_name c; params := params c; callback := callback c;
     on_error := Some handler |}.

(** Attribute access on a value that may be [None]. *)
Definition attr {A : Type} (o : option A) : Run A :=
  match o with
  | Some a => ret a
  | None => raise Py.AttributeError
  end.

Definition ping (ctx : Ctx) : Run unit :=
  send ctx "Pong!".

Definition info (ctx : Ctx) : Run unit :=
  let embed :=
    new_embed "Bot Information" "A simple Discord bot created with discord.py"
      Color_blue in
  let embed :=
    add_field embed "Servers" (Py.str_int (Z.of_nat (length (guilds (bot ctx))))) true in
  ms <- eval (Py.round_float (Py.float_mul (latency (bot ctx)) (Py.float_of_int 1000))) ;;
  let embed := add_field embed "Latency" (Py.str_int ms +:+ "ms") true in
  send_embed ctx embed.

Definition greet (ctx : Ctx) (name : string) : Run unit :=
  send ctx ("Hello, " +:+ name +:+ "! 👋").

Definition add (ctx : Ctx) (num1 num2 : Z) : Run unit :=
  let result := num1 + num2 in
  send ctx (Py.str_int num1 +:+ " + " +:+ Py.str_int num2 +:+ " = " +:+ Py.str_int result).

Definition divide (ctx : Ctx) (num1 num2 : Py.float) : Run unit :=
  if Py.float_eqb num2 (Py.float_of_int 0) then
    send ctx "Error: Cannot divide by zero!"
  else
    result <- eval (Py.float_truediv num1 num2) ;;
    send ctx (Py.float_repr num1 +:+ " ÷ " +:+ Py.float_repr num2 +:+ " = " +:+
              Py.format_fixed 2 result).

Definition divide_error (ctx : Ctx) (error : command_error) : Run unit :=
  if isinstance error MissingRequiredArgument then
    send ctx "Please provide two numbers: !divide <num1> <num2>"
  else if isinstance error BadArgument then
    send ctx "Please provide valid numbers!"
  else ret tt.

Definition serverinfo (ctx : Ctx) : Run unit :=
  guild <- attr (ctx_guild ctx) ;;
  let embed :=
    new_embed (name guild) ("Server information for " +:+ name guild) Color_green in
  let embed :=
    set_thumbnail embed
      match icon guild with
      | Some asset => Some (url asset)
      | None => None
      end in
  let embed := add_field embed "Server ID" (Py.str_int (id guild)) true in
  owner <- attr (owner guild) ;;
  let embed := add_field embed "Owner" (mention owner) true in
  let embed := add_field embed "Members" (Py.str_int (member_count guild)) true in
  let embed :=
    add_field embed "Created At" (Datetime.strftime_Ymd (created_at guild)) true in
  send_embed ctx embed.

Definition ping_command : Command := command "ping" [] ping.

Definition info_command : Command := command "info" [] info.

Definition greet_command : Command :=
  command "greet" [ {| param_name := "name"; converter := to_str |} ] greet.

Definition add_command : Command :=
  command "add"
    [ {| param_name := "num1"; converter := to_int |};
      {| param_name := "num2"; converter := to_int |} ] add.

Definition divide_command : Command :=
  error
    (command "divide"
       [ {| param_name := "num1"; converter := to_float |};
         {| param_name := "num2"; converter := to_float |} ] divide)
    divide_error.

Definition serverinfo_command : Command := command "serverinfo" [] serverinfo.

(** The registry after the module is loaded: the built-in help command,
    then the six decorated handlers in source order. *)
Definition all_commands : gmap string Command :=
  <["serverinfo" := serverinfo_command]>
    (<["divide" := divide_command]>
      (<["add" := add_command]>
        (<["greet" := greet_command]>
          (<["info" := info_command]>
            (<["ping" := ping_command]>
              {["help" := help_command]}))))).

Definition on_message (bot : Client) (message : Message) : Run unit :=
  if user_eqb (author message) (user bot) then ret tt
  else
    (if String.eqb (content message) "hello" then
       emit (Send (channel message) (PlainText "Hello! 👋"))
     else ret tt) ;;
    process_commands all_commands command_prefix bot message.

End Program.

Section Ready.

(** [str(bot.user)]: how the library renders the account of the bot. *)
Variable str_user : option User -> string.

Definition on_ready (bot : Client) : Run unit :=
  emit (Print (str_user (user bot) +:+ " has connected to Discord!")) ;;
  emit (Print ("Bot is in " +:+ Py.str_int (Z.of_nat (length (guilds bot))) +:+ " guilds")).

End Ready.

(** [load_dotenv()]: the variables of the .env file are added to the
    environment; a variable already set keeps its value. *)
Definition load_dotenv (dotenv environ : gmap string string) : gmap string string :=
  environ ∪ dotenv.

(** [os.getenv(key)] *)
Definition getenv (environ : gmap string string) (key : string) : option string :=
  environ !! key.

(** The script run as [__main__], from the .env file and the environment
    of the process. *)
Definition main (dotenv environ : gmap string string) : Run unit :=
  let environ := load_dotenv dotenv environ in
  let TOKEN := getenv environ "DISCORD_TOKEN" in
  match TOKEN with
  | None =>
      emit (Print "Error: DISCORD_TOKEN not found in environment variables.") ;;
      emit (Print "Please create a .env file with your bot token.")
  | Some token => emit (Connect token)
  end.

End Bot.

(* ===================================================================== *)
(** ** The texts that bot.py prints and sends *)
(* ===================================================================== *)

Module Texts.


(** The reply of [add]. *)
Definition sum_text (a b : Z) : string :=
  Py.str_int a +:+ " + " +:+ Py.str_int b +:+ " = " +:+ Py.str_int (a + b).

Definition zero_division_text : string := "Error: Cannot divide by zero!".

(** The reply of [divide] with the quotient [q]. *)
Definition quotient_text (a b q : Py.float) : string :=
  Py.float_repr a +:+ " ÷ " +:+ Py.float_repr b +:+ " = " +:+ Py.format_fixed 2 q.

Definition usage_hint : string := "Please provide two numbers: !divide <num1> <num2>".

Definition valid_numbers : string := "Please provide valid numbers!".

(** The environment variable that holds the token. *)
Definition token_key : string := "DISCORD_TOKEN".

End Texts.

(* ===================================================================== *)
(** ** Sample data *)
(* ===================================================================== *)

Module Sample.
Import Discord Commands.

Definition me : User := {| user_id := 1001; user_bot := true |}.

Definition alice : User := {| user_id := 2002; user_bot := false |}.

Definition home : Guild :=
  {| name := "Home"; id := 42; owner := Some {| mention := "<@2002>" |};
     member_count := 12;
     created_at := {| Datetime.year := 2021; Datetime.month := 3; Datetime.day := 9 |};
     icon := Some {| url := "https://cdn.example/icon.png" |} |}.

Definition client : Client :=
  {| user := Some me; guilds := [home]; latency := Py.float_of_decimal false 123456 (-6) |}.

Definition says (who : User) (text : string) : Message :=
  {| author := who; channel := 5; guild := Some home; content := text |}.

Definition help_page (ctx : Ctx) : Run unit := send ctx "No help page.".

(** The context of a command that alice sends. *)
Definition ctx_of (text : string) : Ctx :=
  {| bot := client; message := says alice text |}.

Definition ten : Py.float := Py.float_of_int 10.

Definition two : Py.float := Py.float_of_int 2.

Definition minus_zero : Py.float := S754_zero true.

End Sample.

(* ===================================================================== *)
(** ** Outcomes of handlers and invocations *)
(* ===================================================================== *)

Module Outcomes.
Import Discord Commands.

(** A property of the run of a handler, for all values of its declared
    parameters. *)
Fixpoint for_all_args (ps : list Param) (P : Run unit -> Prop)
    : callback_type ps -> Prop :=
  match ps with
  | [] => fun body => P body
  | p :: ps' => fun k => forall v, for_all_args ps' P (k v)
  end.

(** A run that sends one reply to the channel and returns, or raises
    before it sends anything. *)
Definition replies_once_or_raises (ch : Z) (r : Run unit) : Prop :=
  (exists reply, r = ([Send ch reply], inr tt)) \/ (exists e, r = ([], inl e)).

(** The binding errors over a list of parameters: a missing or a bad
    argument that names one of them. *)
Definition binding_error (ps : list Param) (e : command_error) : Prop :=
  exists p, In p ps /\
    (e = missing_required_argument (param_name p) \/ e = bad_argument (param_name p)).

(** What handling one message leaves behind at most: nothing, one reply
    to the channel, or one logged error. *)
Definition at_most_one_reply (ch : Z) (t : list Effect) : Prop :=
  t = [] \/ (exists reply, t = [Send ch reply]) \/ (exists e, t = [LogError e]).

(** Characters that every part of the model reads as the framework and
    Python do: ASCII, no double quote and no backslash (the framework
    gives both a meaning inside arguments). *)
Definition plain_char (c : ascii) : bool :=
  (Py.code c <? 128)%N && negb (Py.code c =? 34)%N && negb (Py.code c =? 92)%N.

Definition is_ascii (c : ascii) : bool := (Py.code c <? 128)%N.

Definition is_plain (s : string) : bool := Py.all_chars plain_char s.

(** The whitespace between two tokens: at least one character, all of
    them whitespace. *)
Definition is_gap (s : string) : bool :=
  match s with
  | EmptyString => false
  | _ => Py.all_chars Py.isspace s
  end.

(** [n] is an integer nearest to the finite float [x]: equal to it when
    [x] is an integer, otherwise at most one half away. *)
Definition is_nearest_int (x : Py.float) (n : Z) : Prop :=
  match x with
  | S754_zero _ => n = 0
  | S754_finite s m e =>
      let v := if s then - Zpos m else Zpos m in
      if 0 <=? e then n = v * 2 ^ e
      else 2 * Z.abs (v - n * 2 ^ (- e)) <= 2 ^ (- e)
  | _ => False
  end.

(** [r] hundredths is a nearest multiple of 0.01 to [m * 2^e]. *)
Definition is_nearest_hundredth (m : positive) (e : Z) (r : Z) : Prop :=
  if 0 <=? e then r = 100 * Zpos m * 2 ^ e
  else 2 * Z.abs (100 * Zpos m - r * 2 ^ (- e)) <= 2 ^ (- e).

End Outcomes.

(* ===================================================================== *)
(** ** More sample data *)
(* ===================================================================== *)

Module Cases.
Import Discord Commands.

(** A message of alice in a private channel. *)
Definition whispers (text : string) : Message :=
  {| author := Sample.alice; channel := 9; guild := None; content := text |}.

(** The bot before the first heartbeat is acknowledged: no latency yet. *)
Definition fresh_client : Client :=
  {| user := Some Sample.me; guilds := [Sample.home]; latency := S754_infinity false |}.

(** A guild whose owner is not among the members the bot knows. *)
Definition unowned : Guild :=
  {| name := "Elsewhere"; id := 77; owner := None; member_count := 3;
     created_at := {| Datetime.year := 2022; Datetime.month := 11; Datetime.day := 30 |};
     icon := None |}.

(** A message of alice in that guild. *)
Definition says_elsewhere (text : string) : Message :=
  {| author := Sample.alice; channel := 6; guild := Some unowned; content := text |}.

Definition show_user (u : option User) : string :=
  match u with
  | Some v => "user " +:+ Py.str_int (user_id v)
  | None => "None"
  end.

End Cases.

(* ===================================================================== *)
(** ** Facts about the builtins *)
(* ===================================================================== *)

Module PyFacts.
Import Py.

(** Case analysis on the 256 characters. *)
Ltac by_chars c := destruct c as [[] [] [] [] [] [] [] []]; vm_compute; intuition congruence.

Lemma isdigit_not_space c : isdigit c = true -> isspace c = false /\ c_isspace c = false.
Proof. by_chars c. Qed.

Lemma isdigit_not_mark c :
  isdigit c = true -> Ascii.eqb c "_" = false /\ c <> "-"%char /\ c <> "+"%char.
Proof. by_chars c. Qed.

Lemma isdigit_value c : isdigit c = true -> exists v, digit_value c = Some v /\ 0 <= v <= 9.
Proof.
  destruct c as [[] [] [] [] [] [] [] []]; vm_compute; try congruence;
    intros _; eexists; (split; [reflexivity | split; congruence]).
Qed.

Lemma uint_digits d : all_chars isdigit (NilEmpty.string_of_uint d) = true.
Proof. induction d; simpl; auto. Qed.

Lemma uint_nonempty d : d <> Decimal.Nil -> NilEmpty.string_of_uint d <> EmptyString.
Proof. destruct d; simpl; congruence. Qed.

(** The decimal string of an integer: digits, after a minus sign when
    the integer is negative. *)
Lemma str_int_shape z :
  exists ds, ds <> EmptyString /\ all_chars isdigit ds = true /\
             str_int z = (if z <? 0 then String "-" ds else ds).
Proof.
  destruct z as [|p|p]; unfold str_int; simpl.
  - exists "0"%string. repeat split; congruence.
  - exists (NilEmpty.string_of_uint (Pos.to_uint p)).
    pose proof (Unsigned.to_uint_nonnil p) as Hn.
    split; [now apply uint_nonempty|]. split; [apply uint_digits|].
    unfold NilZero.string_of_uint. destruct (Pos.to_uint p); congruence.
  - exists (NilEmpty.string_of_uint (Pos.to_uint p)).
    pose proof (Unsigned.to_uint_nonnil p) as Hn.
    split; [now apply uint_nonempty|]. split; [apply uint_digits|].
    unfold NilZero.string_of_uint. destruct (Pos.to_uint p); congruence.
Qed.

Lemma int_digits_acc d acc :
  int_digits (Zpos acc) (NilEmpty.string_of_uint d) = Some (Zpos (Pos.of_uint_acc d acc)).
Proof.
  revert acc. induction d; intros acc; simpl; try reflexivity;
    match goal with
    | |- int_digits ?a _ = _ =>
        match goal with
        | |- _ = Some (Zpos (Pos.of_uint_acc _ ?b)) =>
            replace a with (Zpos b) by (vm_compute Z.of_N; lia)
        end
    end; apply IHd.
Qed.

Lemma int_digits_zero d :
  int_digits 0 (NilEmpty.string_of_uint d) = Some (Z.of_N (Pos.of_uint d)).
Proof.
  induction d; simpl; try reflexivity; try apply IHd;
    match goal with
    | |- int_digits ?a _ = _ => change a with (Zpos (Z.to_pos a))
    end; rewrite int_digits_acc; reflexivity.
Qed.

Lemma rstrip_id s : all_chars (fun c => negb (c_isspace c)) s = true -> rstrip s = s.
Proof.
  induction s as [|c s IH]; simpl; [reflexivity|].
  intros [Hc Hs]%andb_true_iff. rewrite (IH Hs).
  destruct s; [|reflexivity].
  apply negb_true_iff in Hc. now rewrite Hc.
Qed.

Lemma lstrip_id c s : c_isspace c = false -> lstrip (String c s) = String c s.
Proof. intros H. simpl. now rewrite H. Qed.

Lemma all_chars_impl (p q : ascii -> bool) s :
  (forall c, p c = true -> q c = true) -> all_chars p s = true -> all_chars q s = true.
Proof.
  intros Hpq. induction s as [|c s IH]; simpl; [reflexivity|].
  intros [Hc Hs]%andb_true_iff. rewrite (Hpq _ Hc), (IH Hs). reflexivity.
Qed.

Lemma digits_strip ds :
  ds <> EmptyString -> all_chars isdigit ds = true -> strip ds = ds.
Proof.
  intros Hne Hd. unfold strip. destruct ds as [|c ds]; [congruence|].
  simpl in Hd. apply andb_true_iff in Hd as [Hc Hds].
  rewrite lstrip_id by (now apply isdigit_not_space).
  apply rstrip_id. simpl. rewrite (proj2 (isdigit_not_space _ Hc)). simpl.
  apply (all_chars_impl isdigit); [|assumption].
  intros a Ha. now rewrite (proj2 (isdigit_not_space _ Ha)).
Qed.

Lemma minus_digits_strip ds :
  ds <> EmptyString -> all_chars isdigit ds = true -> strip (String "-" ds) = String "-" ds.
Proof.
  intros Hne Hd. unfold strip. rewrite lstrip_id by reflexivity.
  apply rstrip_id. simpl.
  apply (all_chars_impl isdigit); [|assumption].
  intros a Ha. now rewrite (proj2 (isdigit_not_space _ Ha)).
Qed.

Lemma split_sign_digit c s : isdigit c = true -> split_sign (String c s) = (false, String c s).
Proof.
  intros H. destruct (isdigit_not_mark _ H) as (_ & Hm & Hp).
  unfold split_sign.
  destruct c as [[] [] [] [] [] [] [] []]; try reflexivity; congruence.
Qed.

(** Reading a digit string from its first digit on is reading it whole
    from zero. *)
Lemma int_digits_head c s v :
  digit_value c = Some v -> int_digits v s = int_digits 0 (String c s).
Proof.
  intros Hv. simpl. assert (Hd : isdigit c = true) by (unfold isdigit; now rewrite Hv).
  rewrite (proj1 (isdigit_not_mark _ Hd)), Hv. reflexivity.
Qed.

Lemma int_of_digits p :
  match NilEmpty.string_of_uint (Pos.to_uint p) with
  | String d r =>
      match digit_value d with
      | Some v => int_digits v r
      | None => None
      end
  | EmptyString => None
  end = Some (Zpos p).
Proof.
  pose proof (int_digits_zero (Pos.to_uint p)) as H.
  rewrite Unsigned.of_to in H. simpl Z.of_N in H.
  pose proof (uint_digits (Pos.to_uint p)) as Hd.
  pose proof (uint_nonempty _ (Unsigned.to_uint_nonnil p)) as Hne.
  destruct (NilEmpty.string_of_uint (Pos.to_uint p)) as [|c r]; [congruence|].
  simpl in Hd. apply andb_true_iff in Hd as [Hc _].
  destruct (isdigit_value _ Hc) as (v & Hv & _). rewrite Hv.
  now rewrite (int_digits_head _ _ _ Hv).
Qed.

(** [int(str(n)) == n] *)
Lemma int_of_str_str_int z : int_of_str (str_int z) = Some z.
Proof.
  unfold int_of_str.
  destruct z as [|p|p]; [reflexivity| |].
  - pose proof (int_of_digits p) as H.
    pose proof (uint_digits (Pos.to_uint p)) as Hd.
    pose proof (uint_nonempty _ (Unsigned.to_uint_nonnil p)) as Hne.
    assert (Hs : str_int (Zpos p) = NilEmpty.string_of_uint (Pos.to_uint p)).
    { unfold str_int. simpl. unfold NilZero.string_of_uint.
      pose proof (Unsigned.to_uint_nonnil p). destruct (Pos.to_uint p); congruence. }
    rewrite Hs, (digits_strip _ Hne Hd).
    destruct (NilEmpty.string_of_uint (Pos.to_uint p)) as [|c r]; [congruence|].
    simpl in Hd. apply andb_true_iff in Hd as [Hc _].
    rewrite (split_sign_digit _ _ Hc).
    destruct (digit_value c); [|congruence]. now rewrite H.
  - pose proof (int_of_digits p) as H.
    pose proof (uint_digits (Pos.to_uint p)) as Hd.
    pose proof (uint_nonempty _ (Unsigned.to_uint_nonnil p)) as Hne.
    assert (Hs : str_int (Zneg p) = String "-" (NilEmpty.string_of_uint (Pos.to_uint p))).
    { unfold str_int. simpl. unfold NilZero.string_of_uint.
      pose proof (Unsigned.to_uint_nonnil p). destruct (Pos.to_uint p); congruence. }
    rewrite Hs, (minus_digits_strip _ Hne Hd). simpl split_sign. cbv iota beta.
    destruct (NilEmpty.string_of_uint (Pos.to_uint p)) as [|c r]; [congruence|].
    destruct (digit_value c); [|congruence]. now rewrite H.
Qed.

(** A decimal string holds no whitespace and is not empty. *)
Lemma str_int_token z :
  str_int z <> EmptyString /\ all_chars (fun c => negb (isspace c)) (str_int z) = true.
Proof.
  destruct (str_int_shape z) as (ds & Hne & Hd & ->).
  assert (Hds : all_chars (fun c => negb (isspace c)) ds = true).
  { apply (all_chars_impl isdigit); [|assumption].
    intros a Ha. now rewrite (proj1 (isdigit_not_space _ Ha)). }
  destruct (z <? 0); [|now split].
  split; [congruence|]. simpl. assumption.
Qed.


Lemma append_empty_r s : s +:+ "" = s.
Proof.
  induction s as [|c s IH]; [reflexivity|].
  change (String c (s +:+ "") = String c s). now rewrite IH.
Qed.

(** A property checked on every integer of a range holds on the range. *)
Lemma range_check (P : Z -> bool) (lo n : Z) :
  forallb P (map (fun i => lo + Z.of_nat i) (seq 0 (Z.to_nat n))) = true ->
  forall z, lo <= z < lo + n -> P z = true.
Proof.
  intros H z Hz. rewrite forallb_forall in H. apply H.
  apply in_map_iff. exists (Z.to_nat (z - lo)). split; [lia|].
  apply in_seq. lia.
Qed.

Lemma two_digits r : 0 <= r < 100 -> is_digits 2 (Py.zfill 2 (Py.str_int r)) = true.
Proof.
  apply (range_check (fun r => is_digits 2 (Py.zfill 2 (Py.str_int r))) 0 100).
  vm_compute. reflexivity.
Qed.

Lemma four_digits r : 0 <= r < 10000 -> is_digits 4 (Py.zfill 4 (Py.str_int r)) = true.
Proof.
  apply (range_check (fun r => is_digits 4 (Py.zfill 4 (Py.str_int r))) 0 10000).
  vm_compute. reflexivity.
Qed.

(** Rounding to the nearest multiple: the error is at most half the
    divisor. *)
Lemma round_half_even_nearest n d :
  0 < d -> 2 * Z.abs (n - Py.round_half_even n d * d) <= d.
Proof.
  intros Hd. unfold Py.round_half_even.
  pose proof (Z.div_mod n d ltac:(lia)) as Hn.
  pose proof (Z.mod_pos_bound n d Hd) as Hr.
  destruct (Z.compare_spec (2 * (n mod d)) d);
    [destruct (Z.even (n / d))| |]; nia.
Qed.

Lemma round_half_even_nonneg n d : 0 <= n -> 0 < d -> 0 <= Py.round_half_even n d.
Proof.
  intros Hn Hd. unfold Py.round_half_even.
  assert (0 <= n / d) by (apply Z.div_pos; lia).
  destruct (2 * (n mod d) ?= d); [destruct (Z.even (n / d))| |]; lia.
Qed.


Lemma float_eqb_zero y :
  Py.float_eqb y (Py.float_of_int 0) = true <-> exists s, y = S754_zero s.
Proof.
  split.
  - destruct y as [s|[]| |[] m e]; try discriminate. intros _. now exists s.
  - intros [s ->]. reflexivity.
Qed.

Lemma digits_of_length_2 s : is_digits 2 s = true ->
  exists a b, s = String a (String b EmptyString) /\ Py.isdigit a = true /\ Py.isdigit b = true.
Proof.
  intros [Hl Hd]%andb_true_iff. apply Nat.eqb_eq in Hl.
  destruct s as [|a [|b [|c s]]]; try discriminate Hl.
  simpl in Hd. apply andb_true_iff in Hd as [Ha Hd]. apply andb_true_iff in Hd as [Hb _].
  now exists a, b.
Qed.

Lemma digits_of_length_4 s : is_digits 4 s = true ->
  exists a b c d, s = String a (String b (String c (String d EmptyString))) /\
    Py.isdigit a = true /\ Py.isdigit b = true /\ Py.isdigit c = true /\ Py.isdigit d = true.
Proof.
  intros [Hl Hd]%andb_true_iff. apply Nat.eqb_eq in Hl.
  destruct s as [|a [|b [|c [|d [|x s]]]]]; try discriminate Hl.
  simpl in Hd. repeat (apply andb_true_iff in Hd as [? Hd]).
  now exists a, b, c, d.
Qed.

(** A valid date prints in the pattern YYYY-MM-DD. *)
Lemma strftime_iso d : Datetime.valid d = true -> Datetime.is_iso_date (Datetime.strftime_Ymd d) = true.
Proof.
  unfold Datetime.valid. intros H.
  repeat (apply andb_true_iff in H as [H ?]).
  destruct (digits_of_length_4 _ (four_digits (Datetime.year d) ltac:(lia)))
    as (y1 & y2 & y3 & y4 & Hy & ? & ? & ? & ?).
  destruct (digits_of_length_2 _ (two_digits (Datetime.month d) ltac:(lia)))
    as (m1 & m2 & Hm & ? & ?).
  destruct (digits_of_length_2 _ (two_digits (Datetime.day d) ltac:(lia)))
    as (d1 & d2 & Hd & ? & ?).
  unfold Datetime.strftime_Ymd. rewrite Hy, Hm, Hd.
  cbn [Datetime.is_iso_date String.append forallb].
  repeat (apply andb_true_iff; split); auto.
Qed.

End PyFacts.

(* ===================================================================== *)
(** ** Facts about the framework *)
(* ===================================================================== *)

Module CommandsFacts.
Import Discord Commands PyFacts.

Lemma get_word_app t rest :
  Py.all_chars (fun c => negb (Py.isspace c)) t = true ->
  at_boundary rest = true ->
  get_word (t +:+ rest) = (t, rest).
Proof.
  intros Ht Hr. induction t as [|c t IH]; simpl.
  - destruct rest as [|c rest]; [reflexivity|]. simpl in Hr. simpl. now rewrite Hr.
  - simpl in Ht. apply andb_true_iff in Ht as [Hc Ht].
    apply negb_true_iff in Hc. rewrite Hc, (IH Ht). reflexivity.
Qed.

Lemma token_cons t : is_token t = true ->
  exists c t', t = String c t' /\ Py.isspace c = false /\
               Py.all_chars (fun c => negb (Py.isspace c)) t = true.
Proof.
  destruct t as [|c t]; [discriminate|]. intros H. exists c, t.
  split; [reflexivity|]. unfold is_token in H. split; [|exact H].
  simpl in H. apply andb_true_iff in H as [Hc _]. now apply negb_true_iff.
Qed.

Lemma skip_ws_token t rest : is_token t = true -> skip_ws (t +:+ rest) = t +:+ rest.
Proof.
  intros (c & t' & -> & Hc & _)%token_cons. simpl. now rewrite Hc.
Qed.

Lemma parse_arguments_cons p ps view (k : callback_type (p :: ps)) :
  parse_arguments (p :: ps) view k =
    match skip_ws view with
    | EmptyString => inl (missing_required_argument (param_name p))
    | String c unread =>
        let '(argument, rest) := get_word (String c unread) in
        match convert (converter p) argument with
        | Some v => parse_arguments ps rest (k v)
        | None => inl (bad_argument (param_name p))
        end
    end.
Proof. reflexivity. Qed.

(** A token in front of the view is bound to the next parameter when its
    coercion succeeds. *)
Lemma parse_arguments_bind p ps t rest (k : callback_type (p :: ps)) v :
  is_token t = true -> at_boundary rest = true ->
  convert (converter p) t = Some v ->
  parse_arguments (p :: ps) (t +:+ rest) k = parse_arguments ps rest (k v).
Proof.
  intros Ht Hr Hv. rewrite parse_arguments_cons, (skip_ws_token _ _ Ht).
  destruct (token_cons _ Ht) as (c & t' & -> & Hc & Hall).
  change (String c t' +:+ rest) with (String c (t' +:+ rest)) at 1.
  cbv iota beta.
  change (String c (t' +:+ rest)) with (String c t' +:+ rest).
  rewrite (get_word_app _ _ Hall Hr), Hv. reflexivity.
Qed.

(** A token whose coercion fails is a [BadArgument] naming the parameter. *)
Lemma parse_arguments_bad p ps t rest (k : callback_type (p :: ps)) :
  is_token t = true -> at_boundary rest = true ->
  convert (converter p) t = None ->
  parse_arguments (p :: ps) (t +:+ rest) k = inl (bad_argument (param_name p)).
Proof.
  intros Ht Hr Hv. rewrite parse_arguments_cons, (skip_ws_token _ _ Ht).
  destruct (token_cons _ Ht) as (c & t' & -> & Hc & Hall).
  change (String c t' +:+ rest) with (String c (t' +:+ rest)) at 1.
  cbv iota beta.
  change (String c (t' +:+ rest)) with (String c t' +:+ rest).
  rewrite (get_word_app _ _ Hall Hr), Hv. reflexivity.
Qed.

Lemma parse_arguments_space p ps c view (k : callback_type (p :: ps)) :
  Py.isspace c = true ->
  parse_arguments (p :: ps) (String c view) k = parse_arguments (p :: ps) view k.
Proof. intros Hc. rewrite !parse_arguments_cons. simpl skip_ws. now rewrite Hc. Qed.

Lemma parse_arguments_missing p ps view (k : callback_type (p :: ps)) :
  skip_ws view = EmptyString ->
  parse_arguments (p :: ps) view k = inl (missing_required_argument (param_name p)).
Proof. intros H. rewrite parse_arguments_cons. now rewrite H. Qed.

Lemma bind_ret_l {A B : Type} (a : A) (k : A -> Run B) : bind (ret a) k = k a.
Proof. unfold bind, ret. destruct (k a) as [more r]. reflexivity. Qed.

Lemma bind_emit {B : Type} e (k : unit -> Run B) :
  bind (emit e) k = (e :: fst (k tt), snd (k tt)).
Proof. unfold bind, emit. destruct (k tt) as [more r]. reflexivity. Qed.

Lemma isinstance_exclusive e :
  isinstance e BadArgument = true -> isinstance e MissingRequiredArgument = false.
Proof. destruct e as [[] p o]; vm_compute; congruence. Qed.

End CommandsFacts.

(* ===================================================================== *)
(** ** Facts about bot.py *)
(* ===================================================================== *)

Module BotFacts.
Import Discord Commands Bot Texts PyFacts CommandsFacts.

Section Registry.

Variable help : Ctx -> Run unit.

(** What the registry holds under each name. *)
Lemma all_commands_lookup (n : string) :
  all_commands help !! n =
    if decide (n = "serverinfo") then Some (serverinfo_command)
    else if decide (n = "divide") then Some (divide_command)
    else if decide (n = "add") then Some (add_command)
    else if decide (n = "greet") then Some (greet_command)
    else if decide (n = "info") then Some (info_command)
    else if decide (n = "ping") then Some (ping_command)
    else if decide (n = "help") then Some (help_command help)
    else None.
Proof.
  unfold all_commands.
  repeat (case_decide; [subst n; now simplify_map_eq|]).
  now simplify_map_eq.
Qed.

Lemma lookup_add : all_commands help !! "add" = Some add_command.
Proof. now rewrite all_commands_lookup. Qed.

Lemma lookup_divide : all_commands help !! "divide" = Some divide_command.
Proof. now rewrite all_commands_lookup. Qed.

(** Past the guard on its own messages, [on_message] is the keyword
    reply followed by command processing. *)
Lemma on_message_other bot m :
  user_eqb (author m) (user bot) = false ->
  on_message help bot m =
    bind (if String.eqb (content m) "hello"
          then emit (Send (channel m) (PlainText "Hello! 👋")) else ret tt)
         (fun _ => process_commands (all_commands help) command_prefix bot m).
Proof. intros H. unfold on_message. now rewrite H. Qed.

(** A message of a user that names a registered command invokes it on
    the text after the name. *)
Lemma on_message_invoke bot m n rest c :
  user_eqb (author m) (user bot) = false ->
  user_bot (author m) = false ->
  content m = "!" +:+ n +:+ rest ->
  is_token n = true -> at_boundary rest = true ->
  all_commands help !! n = Some c ->
  on_message help bot m = invoke c {| Commands.bot := bot; message := m |} rest.
Proof.
  intros Hself Hbot Hc Hn Hr Hl.
  rewrite (on_message_other _ _ Hself), Hc.
  change (("!" +:+ n +:+ rest) =? "hello")%string with false. cbv iota.
  rewrite bind_ret_l. unfold process_commands. rewrite Hbot, Hc.
  change (skip_string command_prefix ("!" +:+ n +:+ rest)) with (Some (n +:+ rest)).
  destruct (token_cons _ Hn) as (ch & t' & -> & Hch & Hall).
  rewrite (get_word_app _ _ Hall Hr), Hl. reflexivity.
Qed.

End Registry.

Lemma invoke_add ctx ta tb a b :
  is_token ta = true -> is_token tb = true ->
  Py.int_of_str ta = Some a -> Py.int_of_str tb = Some b ->
  invoke add_command ctx (" " +:+ ta +:+ " " +:+ tb) =
    ([Send (channel (message ctx)) (PlainText (sum_text a b))], inr tt).
Proof.
  intros Hta Htb Ha Hb. unfold invoke.
  change (params add_command) with
    [ {| param_name := "num1"; converter := to_int |};
      {| param_name := "num2"; converter := to_int |} ].
  change (" " +:+ ta +:+ " " +:+ tb) with (String " " (ta +:+ String " " tb)).
  rewrite parse_arguments_space by reflexivity.
  rewrite (parse_arguments_bind {| param_name := "num1"; converter := to_int |}
             _ ta (String " " tb) _ a Hta eq_refl Ha).
  rewrite parse_arguments_space by reflexivity.
  rewrite <- (append_empty_r tb).
  rewrite (parse_arguments_bind {| param_name := "num2"; converter := to_int |}
             _ tb "" _ b Htb eq_refl Hb).
  reflexivity.
Qed.

Lemma invoke_add_bad ctx t rest :
  is_token t = true -> at_boundary rest = true -> Py.int_of_str t = None ->
  invoke add_command ctx (" " +:+ t +:+ rest) = ([LogError (bad_argument "num1")], inr tt).
Proof.
  intros Ht Hr Hn. unfold invoke.
  change (params add_command) with
    [ {| param_name := "num1"; converter := to_int |};
      {| param_name := "num2"; converter := to_int |} ].
  change (" " +:+ t +:+ rest) with (String " " (t +:+ rest)).
  rewrite parse_arguments_space by reflexivity.
  rewrite (parse_arguments_bad {| param_name := "num1"; converter := to_int |}
             _ t _ _ Ht Hr Hn).
  reflexivity.
Qed.

Lemma invoke_divide_missing ctx t :
  is_token t = true -> Py.float_of_str t <> None ->
  invoke divide_command ctx (" " +:+ t) =
    ([Send (channel (message ctx)) (PlainText usage_hint)], inr tt).
Proof.
  intros Ht Hf. destruct (Py.float_of_str t) as [a|] eqn:Ha; [|congruence].
  unfold invoke.
  change (params divide_command) with
    [ {| param_name := "num1"; converter := to_float |};
      {| param_name := "num2"; converter := to_float |} ].
  change (" " +:+ t) with (String " " t).
  rewrite parse_arguments_space by reflexivity.
  rewrite <- (append_empty_r t).
  rewrite (parse_arguments_bind {| param_name := "num1"; converter := to_float |}
             _ t "" _ a Ht eq_refl Ha).
  rewrite parse_arguments_missing by reflexivity.
  reflexivity.
Qed.

(** [divide] never raises: with a zero divisor it sends the fixed text,
    otherwise the formatted quotient. *)
Lemma divide_run ctx a b :
  divide ctx a b =
    ([Send (channel (message ctx))
        (PlainText (if Py.float_eqb b (Py.float_of_int 0) then zero_division_text
                    else quotient_text a b (SFdiv Py.float_prec Py.float_emax a b)))],
     inr tt).
Proof.
  unfold divide, Py.float_truediv.
  change (Py.float_of_int 0) with Py.float_zero.
  destruct (Py.float_eqb b Py.float_zero); reflexivity.
Qed.

Lemma invoke_divide ctx ta tb a b :
  is_token ta = true -> is_token tb = true ->
  Py.float_of_str ta = Some a -> Py.float_of_str tb = Some b ->
  invoke divide_command ctx (" " +:+ ta +:+ " " +:+ tb) = divide ctx a b.
Proof.
  intros Hta Htb Ha Hb. unfold invoke.
  change (params divide_command) with
    [ {| param_name := "num1"; converter := to_float |};
      {| param_name := "num2"; converter := to_float |} ].
  change (" " +:+ ta +:+ " " +:+ tb) with (String " " (ta +:+ String " " tb)).
  rewrite parse_arguments_space by reflexivity.
  rewrite (parse_arguments_bind {| param_name := "num1"; converter := to_float |}
             _ ta (String " " tb) _ a Hta eq_refl Ha).
  rewrite parse_arguments_space by reflexivity.
  rewrite <- (append_empty_r tb).
  rewrite (parse_arguments_bind {| param_name := "num2"; converter := to_float |}
             _ tb "" _ b Htb eq_refl Hb).
  change (parse_arguments [] "" (callback divide_command ctx a b)) with
    (@inr command_error _ (divide ctx a b)).
  cbv iota beta. now rewrite divide_run.
Qed.

Lemma on_message_divide help bot m ta tb a b :
  user_eqb (author m) (user bot) = false -> user_bot (author m) = false ->
  is_token ta = true -> is_token tb = true ->
  Py.float_of_str ta = Some a -> Py.float_of_str tb = Some b ->
  content m = "!divide " +:+ ta +:+ " " +:+ tb ->
  on_message help bot m = divide {| Commands.bot := bot; message := m |} a b.
Proof.
  intros Hself Hbot Hta Htb Ha Hb Hc.
  rewrite (on_message_invoke help bot m "divide" (" " +:+ ta +:+ " " +:+ tb) divide_command
             Hself Hbot Hc eq_refl eq_refl (lookup_divide help)).
  now apply invoke_divide.
Qed.

(** Outside a guild, or in a guild whose owner is not known, [serverinfo]
    stops on the attribute of [None] before it sends anything. *)
Lemma serverinfo_without_guild ctx :
  ctx_guild ctx = None -> serverinfo ctx = ([], inl Py.AttributeError).
Proof. intros Hg. unfold serverinfo. now rewrite Hg. Qed.

Lemma serverinfo_without_owner ctx g :
  ctx_guild ctx = Some g -> owner g = None ->
  serverinfo ctx = ([], inl Py.AttributeError).
Proof.
  intros Hg Ho. unfold serverinfo. rewrite Hg. cbn [attr]. rewrite bind_ret_l.
  now rewrite Ho.
Qed.

(** The framework then logs the failure and nothing reaches the channel. *)
Lemma invoke_serverinfo_without_guild ctx view :
  ctx_guild ctx = None ->
  invoke serverinfo_command ctx view =
    ([LogError (command_invoke_error Py.AttributeError)], inr tt).
Proof.
  intros Hg. unfold invoke.
  change (parse_arguments (params serverinfo_command) view
            (callback serverinfo_command ctx))
    with (@inr command_error _ (serverinfo ctx)).
  cbv iota beta. now rewrite (serverinfo_without_guild ctx Hg).
Qed.

End BotFacts.

(* ===================================================================== *)
(** ** Facts about outcomes *)
(* ===================================================================== *)

Module OutcomeFacts.
Import Discord Commands Bot Texts Outcomes PyFacts CommandsFacts BotFacts.

(** Binding either fails on one of the parameters or reaches the handler
    with some values for all of them. *)
Lemma parse_arguments_outcome ps (P : Run unit -> Prop) :
  forall view (k : callback_type ps),
  for_all_args ps P k ->
  match parse_arguments ps view k with
  | inl e => binding_error ps e
  | inr body => P body
  end.
Proof.
  induction ps as [|p ps IH]; intros view k Hk.
  - exact Hk.
  - rewrite parse_arguments_cons.
    destruct (skip_ws view) as [|c unread].
    + exists p. split; [left; reflexivity|left; reflexivity].
    + destruct (get_word (String c unread)) as [argument rest].
      destruct (convert (converter p) argument) as [v|].
      * specialize (IH rest (k v) (Hk v)).
        destruct (parse_arguments ps rest (k v)); [|exact IH].
        destruct IH as (q & Hq & He). exists q. split; [right; exact Hq|exact He].
      * exists p. split; [left; reflexivity|right; reflexivity].
Qed.

Lemma dispatch_error_unhandled c ctx e :
  on_error c = None -> dispatch_error c ctx e = ([LogError e], inr tt).
Proof. intros H. unfold dispatch_error, on_command_error. now rewrite H. Qed.

Lemma dispatch_error_handled c ctx e h :
  on_error c = Some h -> dispatch_error c ctx e = h ctx e.
Proof.
  intros H. unfold dispatch_error, on_command_error. rewrite H.
  unfold finally, ret. destruct (h ctx e) as [done r]. now rewrite app_nil_r.
Qed.

Lemma binding_error_class ps e :
  binding_error ps e ->
  error_class e = MissingRequiredArgument \/ error_class e = BadArgument.
Proof. intros (p & _ & [-> | ->]); [left|right]; reflexivity. Qed.

Lemma divide_error_binding ctx ps e :
  binding_error ps e ->
  divide_error ctx e = ([Send (channel (message ctx)) (PlainText usage_hint)], inr tt) \/
  divide_error ctx e = ([Send (channel (message ctx)) (PlainText valid_numbers)], inr tt).
Proof. intros (p & _ & [-> | ->]); [left|right]; reflexivity. Qed.

(** The handlers of bot.py send one reply or raise before sending. *)
Lemma ping_once ctx :
  for_all_args (params ping_command) (replies_once_or_raises (channel (message ctx)))
    (callback ping_command ctx).
Proof. left. eexists. reflexivity. Qed.

Lemma info_once ctx :
  for_all_args (params info_command) (replies_once_or_raises (channel (message ctx)))
    (callback info_command ctx).
Proof.
  cbn. unfold info.
  destruct (Py.round_float _) as [x|ms]; [right|left]; eexists; reflexivity.
Qed.

Lemma greet_once ctx :
  for_all_args (params greet_command) (replies_once_or_raises (channel (message ctx)))
    (callback greet_command ctx).
Proof. intros name. left. eexists. reflexivity. Qed.

Lemma add_once ctx :
  for_all_args (params add_command) (replies_once_or_raises (channel (message ctx)))
    (callback add_command ctx).
Proof. intros a b. left. eexists. reflexivity. Qed.

Lemma divide_once ctx :
  for_all_args (params divide_command) (replies_once_or_raises (channel (message ctx)))
    (callback divide_command ctx).
Proof. intros a b. left. eexists. apply divide_run. Qed.

Lemma serverinfo_once ctx :
  for_all_args (params serverinfo_command) (replies_once_or_raises (channel (message ctx)))
    (callback serverinfo_command ctx).
Proof.
  cbn. unfold serverinfo, ctx_guild.
  destruct (guild (message ctx)) as [g|]; [|right; eexists; reflexivity].
  cbn [attr]. rewrite bind_ret_l.
  destruct (owner g) as [o|]; [left|right]; eexists; reflexivity.
Qed.

(** An invocation whose handler behaves so, and whose error handler (if
    any) sends at most one reply, ends normally with at most one reply
    or one logged error. *)
Lemma invoke_at_most_one c ctx view :
  for_all_args (params c) (replies_once_or_raises (channel (message ctx))) (callback c ctx) ->
  (forall h e, on_error c = Some h ->
     h ctx e = ([], inr tt) \/
     exists reply, h ctx e = ([Send (channel (message ctx)) reply], inr tt)) ->
  at_most_one_reply (channel (message ctx)) (fst (invoke c ctx view)) /\
  snd (invoke c ctx view) = inr tt.
Proof.
  intros Hk Hh.
  assert (Herr : forall e,
    at_most_one_reply (channel (message ctx)) (fst (dispatch_error c ctx e)) /\
    snd (dispatch_error c ctx e) = inr tt).
  { intros e. destruct (on_error c) as [h|] eqn:Ho.
    - rewrite (dispatch_error_handled c ctx e h Ho).
      destruct (Hh h e eq_refl) as [-> | [reply ->]]; split; try reflexivity.
      + now left.
      + right; left. now exists reply.
    - rewrite (dispatch_error_unhandled c ctx e Ho). split; [|reflexivity].
      right; right. now exists e. }
  unfold invoke.
  pose proof (parse_arguments_outcome (params c) _ view (callback c ctx) Hk) as Hp.
  destruct (parse_arguments (params c) view (callback c ctx)) as [e|body].
  - apply Herr.
  - destruct Hp as [[reply ->] | [x ->]].
    + split; [|reflexivity]. right; left. now exists reply.
    + unfold catch. specialize (Herr (command_invoke_error x)).
      destruct (dispatch_error c ctx (command_invoke_error x)) as [more r].
      exact Herr.
Qed.

Lemma divide_error_at_most_one ctx e :
  divide_error ctx e = ([], inr tt) \/
  exists reply, divide_error ctx e = ([Send (channel (message ctx)) reply], inr tt).
Proof.
  unfold divide_error.
  destruct (isinstance e MissingRequiredArgument); [right; eexists; reflexivity|].
  destruct (isinstance e BadArgument); [right; eexists; reflexivity|].
  now left.
Qed.

End OutcomeFacts.

(* ===================================================================== *)
(** ** Further facts about scanning, rounding and the registry *)
(* ===================================================================== *)

Module MoreFacts.
Import Discord Commands Bot Texts Outcomes PyFacts CommandsFacts BotFacts OutcomeFacts.

Lemma all_chars_app p s t :
  Py.all_chars p (s +:+ t) = Py.all_chars p s && Py.all_chars p t.
Proof.
  induction s as [|c s IH]; [reflexivity|].
  change (String c s +:+ t) with (String c (s +:+ t)).
  cbn [Py.all_chars]. now rewrite IH, andb_assoc.
Qed.

Lemma skip_ws_blank ws view :
  Py.all_chars Py.isspace ws = true -> skip_ws (ws +:+ view) = skip_ws view.
Proof.
  induction ws as [|c ws IH]; [reflexivity|].
  cbn [Py.all_chars]. intros [Hc Hws]%andb_true_iff.
  change (String c ws +:+ view) with (String c (ws +:+ view)).
  cbn [skip_ws]. rewrite Hc. now apply IH.
Qed.

Lemma skip_ws_all_blank ws :
  Py.all_chars Py.isspace ws = true -> skip_ws ws = EmptyString.
Proof.
  intros H. rewrite <- (append_empty_r ws). now rewrite skip_ws_blank.
Qed.

Lemma gap_blank g : is_gap g = true -> Py.all_chars Py.isspace g = true.
Proof. destruct g; [discriminate|]. intros H. exact H. Qed.

Lemma gap_boundary g view : is_gap g = true -> at_boundary (g +:+ view) = true.
Proof.
  destruct g as [|c g]; [discriminate|]. unfold is_gap. cbn [Py.all_chars].
  intros [Hc _]%andb_true_iff. exact Hc.
Qed.

(** Leading whitespace does not change what is bound. *)
Lemma parse_arguments_gap p ps ws view (k : callback_type (p :: ps)) :
  Py.all_chars Py.isspace ws = true ->
  parse_arguments (p :: ps) (ws +:+ view) k = parse_arguments (p :: ps) view k.
Proof. intros H. rewrite !parse_arguments_cons. now rewrite skip_ws_blank. Qed.

Lemma lookup_ping help : all_commands help !! "ping" = Some ping_command.
Proof. now rewrite all_commands_lookup. Qed.

Lemma lookup_info help : all_commands help !! "info" = Some info_command.
Proof. now rewrite all_commands_lookup. Qed.

Lemma lookup_greet help : all_commands help !! "greet" = Some greet_command.
Proof. now rewrite all_commands_lookup. Qed.

Lemma lookup_serverinfo help : all_commands help !! "serverinfo" = Some serverinfo_command.
Proof. now rewrite all_commands_lookup. Qed.

Lemma str_int_inj a b : Py.str_int a = Py.str_int b -> a = b.
Proof.
  intros H. pose proof (int_of_str_str_int a) as Ha.
  rewrite H, int_of_str_str_int in Ha. now injection Ha.
Qed.

Lemma get_word_str_int z rest :
  at_boundary rest = true -> get_word (Py.str_int z +:+ rest) = (Py.str_int z, rest).
Proof. intros Hr. apply get_word_app; [apply str_int_token|exact Hr]. Qed.

Lemma round_half_even_one n : Py.round_half_even n 1 = n.
Proof.
  unfold Py.round_half_even. rewrite Z.div_1_r, Z.mod_1_r. reflexivity.
Qed.

Lemma scaled_nearest x y w p :
  0 < p -> 2 * Z.abs (x * p - y * p) <= w * p -> 2 * Z.abs (x - y) <= w.
Proof.
  intros Hp H. replace (x * p - y * p) with ((x - y) * p) in H by ring.
  rewrite Z.abs_mul, (Z.abs_eq p) in H by lia. nia.
Qed.

(** Rounding [m * 2^e] scaled by [c] through its decimal expansion is
    rounding it to a nearest integer. *)
Lemma round_decimal_nearest (m : positive) (e c : Z) :
  0 < c ->
  let '(M, sc) := Py.decimal_of_binary (Zpos m) e in
  let r := Py.round_half_even (M * c) (10 ^ sc) in
  0 <= r /\
  if 0 <=? e then r = c * Zpos m * 2 ^ e
  else 2 * Z.abs (c * Zpos m - r * 2 ^ (- e)) <= 2 ^ (- e).
Proof.
  intros Hc. unfold Py.decimal_of_binary.
  set (sc := Z.max 0 (- e)).
  assert (H2 : 0 < 2 ^ (e + sc)) by (apply Z.pow_pos_nonneg; lia).
  assert (H5 : 0 < 5 ^ sc) by (apply Z.pow_pos_nonneg; lia).
  assert (H10 : 0 < 10 ^ sc) by (apply Z.pow_pos_nonneg; lia).
  split; [apply round_half_even_nonneg; [nia|exact H10]|].
  destruct (0 <=? e) eqn:He.
  - apply Z.leb_le in He. assert (Hsc : sc = 0) by lia.
    rewrite Hsc, Z.add_0_r. change (5 ^ 0) with 1. change (10 ^ 0) with 1.
    rewrite round_half_even_one. ring.
  - apply Z.leb_gt in He. assert (Hsc : sc = - e) by lia.
    pose proof (round_half_even_nearest (Z.pos m * 2 ^ (e + sc) * 5 ^ sc * c) (10 ^ sc) H10) as Hn.
    set (r := Py.round_half_even (Z.pos m * 2 ^ (e + sc) * 5 ^ sc * c) (10 ^ sc)) in *.
    replace (e + sc) with 0 in Hn by lia. change (2 ^ 0) with 1 in Hn.
    change 10 with (2 * 5) in Hn. rewrite Z.pow_mul_l in Hn.
    rewrite <- Hsc.
    apply (scaled_nearest _ _ _ (5 ^ sc) H5).
    replace (c * Z.pos m * 5 ^ sc) with (Z.pos m * 1 * 5 ^ sc * c) by ring.
    replace (r * 2 ^ sc * 5 ^ sc) with (r * (2 ^ sc * 5 ^ sc)) by ring.
    exact Hn.
Qed.

Lemma two_digits_read_back r :
  0 <= r < 100 -> Py.int_of_str (Py.zfill 2 (Py.str_int r)) = Some r.
Proof.
  intros Hr.
  pose proof (range_check
    (fun r => match Py.int_of_str (Py.zfill 2 (Py.str_int r)) with
              | Some v => v =? r
              | None => false
              end) 0 100) as H.
  specialize (H ltac:(vm_compute; reflexivity) r Hr). cbv beta in H.
  destruct (Py.int_of_str _) as [v|]; [|discriminate].
  apply Z.eqb_eq in H. now subst.
Qed.

End MoreFacts.

(* ===================================================================== *)
(** ** The claims *)
(* ===================================================================== *)

Import Discord Commands Bot Texts PyFacts CommandsFacts BotFacts.

(** Splits the conjunctions of a goal, and nothing else. *)
Ltac split_all := repeat match goal with |- _ /\ _ => split end.

(** C1: for all integers (and all tokens that [int] accepts) the add
    command replies with exactly "a + b = a+b", the sum being the exact
    integer sum; "!add 2 3" replies "2 + 3 = 5"; a first token of plain
    ASCII characters that is not an integer, such as "foo", is a
    [BadArgument] on the first parameter and nothing is sent, add having
    no error handler of its own. *)
Theorem add_replies_with_the_sum (help : Ctx -> Run unit) :
  (forall ctx a b,
     add ctx a b = ([Send (channel (message ctx)) (PlainText (sum_text a b))], inr tt)) /\
  (forall bot m ta tb a b,
     user_eqb (author m) (user bot) = false -> user_bot (author m) = false ->
     is_token ta = true -> is_token tb = true ->
     Py.int_of_str ta = Some a -> Py.int_of_str tb = Some b ->
     content m = "!add " +:+ ta +:+ " " +:+ tb ->
     on_message help bot m = ([Send (channel m) (PlainText (sum_text a b))], inr tt)) /\
  (forall bot m a b,
     user_eqb (author m) (user bot) = false -> user_bot (author m) = false ->
     content m = "!add " +:+ Py.str_int a +:+ " " +:+ Py.str_int b ->
     on_message help bot m = ([Send (channel m) (PlainText (sum_text a b))], inr tt)) /\
  (forall bot m,
     user_eqb (author m) (user bot) = false -> user_bot (author m) = false ->
     content m = "!add 2 3" ->
     on_message help bot m = ([Send (channel m) (PlainText "2 + 3 = 5")], inr tt)) /\
  (forall bot m t rest,
     user_eqb (author m) (user bot) = false -> user_bot (author m) = false ->
     is_token t = true -> Outcomes.is_plain t = true ->
     at_boundary rest = true -> Py.int_of_str t = None ->
     content m = "!add " +:+ t +:+ rest ->
     parse_arguments (params add_command) (" " +:+ t +:+ rest)
       (callback add_command {| Commands.bot := bot; message := m |})
       = inl (bad_argument "num1") /\
     on_message help bot m = ([LogError (bad_argument "num1")], inr tt)) /\
  (forall bot m,
     user_eqb (author m) (user bot) = false -> user_bot (author m) = false ->
     content m = "!add foo 3" ->
     sends (fst (on_message help bot m)) = [] /\
     on_message help bot m = ([LogError (bad_argument "num1")], inr tt)) /\
  on_error add_command = None.
Proof.
  assert (Htok : forall bot m ta tb a b,
     user_eqb (author m) (user bot) = false -> user_bot (author m) = false ->
     is_token ta = true -> is_token tb = true ->
     Py.int_of_str ta = Some a -> Py.int_of_str tb = Some b ->
     content m = "!add " +:+ ta +:+ " " +:+ tb ->
     on_message help bot m = ([Send (channel m) (PlainText (sum_text a b))], inr tt)).
  { intros bot m ta tb a b Hself Hbot Hta Htb Ha Hb Hc.
    rewrite (on_message_invoke help bot m "add" (" " +:+ ta +:+ " " +:+ tb) add_command
               Hself Hbot Hc eq_refl eq_refl (lookup_add help)).
    now rewrite (invoke_add _ ta tb a b). }
  assert (Hbad : forall bot m t rest,
     user_eqb (author m) (user bot) = false -> user_bot (author m) = false ->
     is_token t = true -> at_boundary rest = true -> Py.int_of_str t = None ->
     content m = "!add " +:+ t +:+ rest ->
     on_message help bot m = ([LogError (bad_argument "num1")], inr tt)).
  { intros bot m t rest Hself Hbot Ht Hr Hn Hc.
    rewrite (on_message_invoke help bot m "add" (" " +:+ t +:+ rest) add_command
               Hself Hbot Hc eq_refl eq_refl (lookup_add help)).
    now apply invoke_add_bad. }
  split_all.
  - reflexivity.
  - exact Htok.
  - intros bot m a b Hself Hbot Hc.
    destruct (str_int_token a) as [Ha1 Ha2], (str_int_token b) as [Hb1 Hb2].
    apply (Htok bot m (Py.str_int a) (Py.str_int b)); try assumption;
      try apply int_of_str_str_int.
    + unfold is_token. destruct (Py.str_int a); [congruence|assumption].
    + unfold is_token. destruct (Py.str_int b); [congruence|assumption].
  - intros bot m Hself Hbot Hc.
    apply (Htok bot m "2" "3" 2 3 Hself Hbot); try reflexivity. exact Hc.
  - intros bot m t rest Hself Hbot Ht _ Hr Hn Hc.
    split; [|now apply (Hbad bot m t rest)].
    change (params add_command) with
      [ {| param_name := "num1"; converter := to_int |};
        {| param_name := "num2"; converter := to_int |} ].
    change (" " +:+ t +:+ rest) with (String " " (t +:+ rest)).
    rewrite parse_arguments_space by reflexivity.
    now apply (parse_arguments_bad {| param_name := "num1"; converter := to_int |}).
  - intros bot m Hself Hbot Hc.
    now rewrite (Hbad bot m "foo" " 3" Hself Hbot eq_refl eq_refl eq_refl Hc).
  - reflexivity.
Qed.

Lemma add_replies_with_the_sum_witness :
  user_eqb (author (Sample.says Sample.alice "!add 2 3")) (user Sample.client) = false /\
  user_bot (author (Sample.says Sample.alice "!add 2 3")) = false /\
  on_message Sample.help_page Sample.client (Sample.says Sample.alice "!add 2 3") =
    ([Send 5 (PlainText "2 + 3 = 5")], inr tt).
Proof.
  split; [reflexivity|]. split; [reflexivity|].
  destruct (add_replies_with_the_sum Sample.help_page) as (_ & _ & _ & H & _).
  apply H; reflexivity.
Defined.



(** C3: divide is the only command with an error handler of its own; the
    handler answers [MissingRequiredArgument] with the usage hint and
    [BadArgument] with the request for valid numbers; "!divide 10" runs it
    with [MissingRequiredArgument]. *)
Theorem only_divide_handles_errors (help : Ctx -> Run unit) :
  (forall n c, all_commands help !! n = Some c ->
               (is_Some (on_error c) <-> n = "divide")) /\
  on_error divide_command = Some divide_error /\
  (forall ctx e, isinstance e MissingRequiredArgument = true ->
     divide_error ctx e = ([Send (channel (message ctx)) (PlainText usage_hint)], inr tt)) /\
  (forall ctx e, isinstance e BadArgument = true ->
     divide_error ctx e = ([Send (channel (message ctx)) (PlainText valid_numbers)], inr tt)) /\
  (forall bot m,
     user_eqb (author m) (user bot) = false -> user_bot (author m) = false ->
     content m = "!divide 10" ->
     parse_arguments (params divide_command) " 10"
       (callback divide_command {| Commands.bot := bot; message := m |})
       = inl (missing_required_argument "num2") /\
     on_message help bot m = ([Send (channel m) (PlainText usage_hint)], inr tt)).
Proof.
  split_all.
  - intros n c. rewrite all_commands_lookup.
    repeat case_decide; intros [= <-]; subst n;
      (split; [intros [h Hh]; vm_compute in Hh; congruence | intros Hn; try discriminate Hn]).
    now exists divide_error.
  - reflexivity.
  - intros ctx e He. unfold divide_error. now rewrite He.
  - intros ctx e He. unfold divide_error.
    now rewrite (isinstance_exclusive e He), He.
  - intros bot m Hself Hbot Hc. split; [reflexivity|].
    rewrite (on_message_invoke help bot m "divide" " 10" divide_command
               Hself Hbot Hc eq_refl eq_refl (lookup_divide help)).
    now apply invoke_divide_missing.
Qed.

Lemma only_divide_handles_errors_witness :
  isinstance (missing_required_argument "num2") MissingRequiredArgument = true /\
  divide_error (Sample.ctx_of "!divide 10") (missing_required_argument "num2") =
    ([Send 5 (PlainText usage_hint)], inr tt).
Proof.
  split; [reflexivity|].
  destruct (only_divide_handles_errors Sample.help_page) as (_ & _ & H & _).
  apply H. reflexivity.
Defined.

(** C4: a message whose author is the bot itself yields no reply and no
    command dispatch, whatever its content. *)
Theorem own_messages_are_ignored (help : Ctx -> Run unit)
    (bot : Client) (m : Message) (me : User) :
  user bot = Some me -> user_id (author m) = user_id me ->
  on_message help bot m = ([], inr tt).
Proof.
  intros Hme Hid. unfold on_message, user_eqb. rewrite Hme, Hid, Z.eqb_refl.
  reflexivity.
Qed.

Lemma own_messages_are_ignored_witness :
  user Sample.client = Some Sample.me /\
  user_id (author (Sample.says Sample.me "!ping")) = user_id Sample.me /\
  on_message Sample.help_page Sample.client (Sample.says Sample.me "!ping") = ([], inr tt).
Proof.
  split; [reflexivity|]. split; [reflexivity|].
  apply (own_messages_are_ignored Sample.help_page Sample.client
           (Sample.says Sample.me "!ping") Sample.me); reflexivity.
Defined.



(** C6: without a token in the environment (the .env file included) the
    script prints its two fixed lines and ends, and never connects; with a
    token it starts the connection with it. *)
Theorem main_needs_the_token (dotenv environ : gmap string string) :
  (environ !! token_key = None -> dotenv !! token_key = None ->
     main dotenv environ =
       ([Print "Error: DISCORD_TOKEN not found in environment variables.";
         Print "Please create a .env file with your bot token."], inr tt) /\
     forall token, Connect token ∉ fst (main dotenv environ)) /\
  (forall token, environ !! token_key = Some token ->
     main dotenv environ = ([Connect token], inr tt)) /\
  (forall token, environ !! token_key = None -> dotenv !! token_key = Some token ->
     main dotenv environ = ([Connect token], inr tt)).
Proof.
  unfold main, getenv, load_dotenv. fold token_key.
  split_all.
  - intros He Hd.
    assert (H : (environ ∪ dotenv) !! token_key = None)
      by (apply lookup_union_None; split; assumption).
    rewrite H. split; [reflexivity|].
    intros token Hin. cbn in Hin.
    repeat (apply elem_of_cons in Hin as [Hin|Hin]; [discriminate Hin|]).
    now apply elem_of_nil in Hin.
  - intros token He.
    now rewrite (lookup_union_Some_l environ dotenv _ _ He).
  - intros token He Hd.
    now rewrite (lookup_union_r environ dotenv _ He), Hd.
Qed.

Lemma main_needs_the_token_witness :
  (∅ : gmap string string) !! token_key = None /\
  main ∅ ∅ =
    ([Print "Error: DISCORD_TOKEN not found in environment variables.";
      Print "Please create a .env file with your bot token."], inr tt).
Proof.
  split; [reflexivity|].
  destruct (main_needs_the_token ∅ ∅) as [H _].
  apply H; reflexivity.
Defined.

(** C7: a message with the prefix whose command name token is not in the
    registry gets no reply, and handling it ends normally; the framework
    at most logs the unknown name.  "!frobnicate" is such a message. *)
Theorem unknown_commands_are_ignored (help : Ctx -> Run unit) (bot : Client) (m : Message) :
  (forall n, invoked_with command_prefix (content m) = Some n ->
     all_commands help !! n = None ->
     sends (fst (on_message help bot m)) = [] /\
     snd (on_message help bot m) = inr tt /\
     (fst (on_message help bot m) = [] \/
      fst (on_message help bot m) = [LogError (command_not_found n)])) /\
  (content m = "!frobnicate" ->
     sends (fst (on_message help bot m)) = [] /\ snd (on_message help bot m) = inr tt).
Proof.
  assert (Hmain : forall n, invoked_with command_prefix (content m) = Some n ->
     all_commands help !! n = None ->
     sends (fst (on_message help bot m)) = [] /\
     snd (on_message help bot m) = inr tt /\
     (fst (on_message help bot m) = [] \/
      fst (on_message help bot m) = [LogError (command_not_found n)])).
  { intros n Hn Hl. unfold on_message.
    destruct (user_eqb (author m) (user bot)); [now auto|].
    destruct (String.eqb_spec (content m) "hello") as [Hh|_].
    { rewrite Hh in Hn. discriminate Hn. }
    rewrite bind_ret_l. unfold process_commands.
    destruct (user_bot (author m)); [now auto|].
    unfold invoked_with in Hn.
    destruct (skip_string command_prefix (content m)) as [view|]; [|discriminate Hn].
    destruct (get_word view) as [w rest]. injection Hn as ->.
    rewrite Hl. destruct n; now auto. }
  split; [exact Hmain|].
  intros Hc.
  destruct (Hmain "frobnicate") as (H1 & H2 & _).
  - now rewrite Hc.
  - now rewrite all_commands_lookup.
  - now split.
Qed.

Lemma unknown_commands_are_ignored_witness :
  invoked_with command_prefix (content (Sample.says Sample.alice "!frobnicate")) =
    Some "frobnicate" /\
  all_commands Sample.help_page !! "frobnicate" = None /\
  sends (fst (on_message Sample.help_page Sample.client
                (Sample.says Sample.alice "!frobnicate"))) = [].
Proof.
  assert (Hl : all_commands Sample.help_page !! "frobnicate" = None)
    by (now rewrite all_commands_lookup).
  split; [reflexivity|]. split; [exact Hl|].
  destruct (unknown_commands_are_ignored Sample.help_page Sample.client
              (Sample.says Sample.alice "!frobnicate")) as [H _].
  apply (H "frobnicate" eq_refl Hl).
Defined.

(** C8: serverinfo does not reply with its embed in every guild: where
    the owner of the guild is not among the members the bot knows,
    [guild.owner.mention] raises [AttributeError] before anything is sent;
    the framework logs the failure and the channel gets no reply, although
    the member count, the creation date and the icon are at hand. *)
Theorem serverinfo_breaks_on_unknown_owner (help : Ctx -> Run unit) (bot : Client)
    (m : Message) (g : Guild) (rest : string) :
  user_eqb (author m) (user bot) = false -> user_bot (author m) = false ->
  content m = "!serverinfo" +:+ rest -> at_boundary rest = true ->
  guild m = Some g -> owner g = None ->
  serverinfo {| Commands.bot := bot; message := m |} = ([], inl Py.AttributeError) /\
  on_message help bot m = ([LogError (command_invoke_error Py.AttributeError)], inr tt) /\
  sends (fst (on_message help bot m)) = [].
Proof.
  intros Hself Hbot Hc Hr Hg Ho.
  assert (Hrun : serverinfo {| Commands.bot := bot; message := m |}
                 = ([], inl Py.AttributeError))
    by (now apply (serverinfo_without_owner _ g)).
  assert (Hmsg : on_message help bot m
                 = ([LogError (command_invoke_error Py.AttributeError)], inr tt)).
  { assert (Hl : all_commands help !! "serverinfo" = Some serverinfo_command)
      by (now rewrite all_commands_lookup).
    rewrite (on_message_invoke help bot m "serverinfo" rest serverinfo_command
               Hself Hbot Hc eq_refl Hr Hl).
    unfold invoke.
    change (parse_arguments (params serverinfo_command) rest
              (callback serverinfo_command {| Commands.bot := bot; message := m |}))
      with (@inr command_error _ (serverinfo {| Commands.bot := bot; message := m |})).
    cbv iota beta. now rewrite Hrun. }
  split; [exact Hrun|]. split; [exact Hmsg|]. now rewrite Hmsg.
Qed.

Lemma serverinfo_breaks_on_unknown_owner_witness :
  guild (Cases.says_elsewhere "!serverinfo") = Some Cases.unowned /\
  owner Cases.unowned = None /\
  member_count Cases.unowned = 3 /\
  on_message Sample.help_page Sample.client (Cases.says_elsewhere "!serverinfo") =
    ([LogError (command_invoke_error Py.AttributeError)], inr tt).
Proof.
  split; [reflexivity|]. split; [reflexivity|]. split; [reflexivity|].
  destruct (serverinfo_breaks_on_unknown_owner Sample.help_page Sample.client
              (Cases.says_elsewhere "!serverinfo") Cases.unowned ""
              eq_refl eq_refl eq_refl eq_refl eq_refl eq_refl) as (_ & H & _).
  exact H.
Defined.

(** C9: the division in [divide] is reached only with a divisor that is
    not zero: no pair of floats makes the handler raise, every divisor
    equal to zero (that is, plus or minus zero, as the tokens "-0" and
    "0.00" are read) takes the branch of the fixed text. *)
Theorem divide_never_divides_by_zero (help : Ctx -> Run unit) (ctx : Ctx) (a b : Py.float) :
  (exists text, divide ctx a b = ([Send (channel (message ctx)) (PlainText text)], inr tt)) /\
  snd (divide ctx a b) <> inl Py.ZeroDivisionError /\
  (Py.float_truediv a b = inl Py.ZeroDivisionError <->
     Py.float_eqb b (Py.float_of_int 0) = true) /\
  (Py.float_eqb b (Py.float_of_int 0) = true <-> exists s, b = S754_zero s) /\
  (Py.float_eqb b (Py.float_of_int 0) = true ->
     divide ctx a b =
       ([Send (channel (message ctx)) (PlainText zero_division_text)], inr tt)) /\
  (forall s, divide ctx a (S754_zero s) =
       ([Send (channel (message ctx)) (PlainText zero_division_text)], inr tt)) /\
  Py.float_of_str "-0" = Some (S754_zero true) /\
  Py.float_of_str "0.00" = Some (S754_zero false) /\
  (forall bot m ta tb x y,
     user_eqb (author m) (user bot) = false -> user_bot (author m) = false ->
     is_token ta = true -> is_token tb = true ->
     Py.float_of_str ta = Some x -> Py.float_of_str tb = Some y ->
     Py.float_eqb y (Py.float_of_int 0) = true ->
     content m = "!divide " +:+ ta +:+ " " +:+ tb ->
     on_message help bot m = ([Send (channel m) (PlainText zero_division_text)], inr tt)).
Proof.
  split_all.
  - rewrite divide_run. eexists. reflexivity.
  - rewrite divide_run. discriminate.
  - unfold Py.float_truediv. change (Py.float_of_int 0) with Py.float_zero.
    destruct (Py.float_eqb b Py.float_zero); split; intros H;
      first [reflexivity | discriminate H].
  - apply float_eqb_zero.
  - intros Hz. now rewrite divide_run, Hz.
  - intros s. now rewrite divide_run.
  - reflexivity.
  - reflexivity.
  - intros bot m ta tb x y Hself Hbot Hta Htb Hx Hy Hz Hc.
    rewrite (on_message_divide help bot m ta tb x y Hself Hbot Hta Htb Hx Hy Hc).
    now rewrite divide_run, Hz.
Qed.

Lemma divide_never_divides_by_zero_witness :
  Py.float_of_str "-0" = Some Sample.minus_zero /\
  Py.float_eqb Sample.minus_zero (Py.float_of_int 0) = true /\
  divide (Sample.ctx_of "!divide 10 -0") Sample.ten Sample.minus_zero =
    ([Send 5 (PlainText zero_division_text)], inr tt).
Proof.
  split; [reflexivity|]. split; [reflexivity|].
  destruct (divide_never_divides_by_zero Sample.help_page
              (Sample.ctx_of "!divide 10 -0") Sample.ten Sample.minus_zero)
    as (_ & _ & _ & _ & H & _).
  apply H. reflexivity.
Defined.

(** C10: the error handler of divide replies exactly when the error is a
    [MissingRequiredArgument] or a [BadArgument]; on any other kind it
    does nothing. *)
Theorem divide_error_replies_iff (ctx : Ctx) (e : command_error) :
  (sends (fst (divide_error ctx e)) <> [] <->
     isinstance e MissingRequiredArgument = true \/ isinstance e BadArgument = true) /\
  (isinstance e MissingRequiredArgument = false -> isinstance e BadArgument = false ->
     divide_error ctx e = ([], inr tt)).
Proof.
  split.
  - unfold divide_error.
    destruct (isinstance e MissingRequiredArgument), (isinstance e BadArgument);
      cbn; intuition congruence.
  - intros H1 H2. unfold divide_error. now rewrite H1, H2.
Qed.

Lemma divide_error_replies_iff_witness :
  isinstance (command_invoke_error Py.AttributeError) MissingRequiredArgument = false /\
  isinstance (command_invoke_error Py.AttributeError) BadArgument = false /\
  divide_error (Sample.ctx_of "!divide 1 2") (command_invoke_error Py.AttributeError) =
    ([], inr tt).
Proof.
  split; [reflexivity|]. split; [reflexivity|].
  destruct (divide_error_replies_iff (Sample.ctx_of "!divide 1 2")
              (command_invoke_error Py.AttributeError)) as [_ H].
  apply H; reflexivity.
Defined.

(* ===================================================================== *)
(** ** Further properties of bot.py *)
(* ===================================================================== *)

Import Outcomes OutcomeFacts MoreFacts.

(** X1: "!ping", alone or followed by anything, is answered with exactly
    "Pong!". *)
Theorem ping_answers_pong (help : Ctx -> Run unit) (bot : Client) (m : Message)
    (rest : string) :
  user_eqb (author m) (user bot) = false -> user_bot (author m) = false ->
  content m = "!ping" +:+ rest -> at_boundary rest = true ->
  on_message help bot m = ([Send (channel m) (PlainText "Pong!")], inr tt).
Proof.
  intros Hself Hbot Hc Hr.
  now rewrite (on_message_invoke help bot m "ping" rest ping_command
                 Hself Hbot Hc eq_refl Hr (lookup_ping help)).
Qed.

Lemma ping_answers_pong_witness :
  on_message Sample.help_page Sample.client (Sample.says Sample.alice "!ping now please") =
    ([Send 5 (PlainText "Pong!")], inr tt).
Proof.
  apply (ping_answers_pong Sample.help_page Sample.client
           (Sample.says Sample.alice "!ping now please") " now please"); reflexivity.
Defined.

(** X2: when the latency in milliseconds is a finite float, info sends one
    embed titled "Bot Information" with two fields: "Servers" is the
    number of guilds, "Latency" is an integer nearest to the latency
    times 1000, followed by "ms". *)
Theorem info_reports_guilds_and_latency (ctx : Ctx) :
  Py.is_finite (Py.float_mul (latency (bot ctx)) (Py.float_of_int 1000)) = true ->
  exists ms e,
    info ctx = ([Send (channel (message ctx)) (StructuredEmbed e)], inr tt) /\
    title e = "Bot Information" /\
    map field_name (fields e) = ["Servers"; "Latency"] /\
    lookup_field "Servers" (fields e)
      = Some (Py.str_int (Z.of_nat (length (guilds (bot ctx))))) /\
    Py.int_of_str (Py.str_int (Z.of_nat (length (guilds (bot ctx)))))
      = Some (Z.of_nat (length (guilds (bot ctx)))) /\
    lookup_field "Latency" (fields e) = Some (Py.str_int ms +:+ "ms") /\
    is_nearest_int (Py.float_mul (latency (bot ctx)) (Py.float_of_int 1000)) ms.
Proof.
  intros Hfin. unfold info.
  destruct (Py.float_mul (latency (bot ctx)) (Py.float_of_int 1000))
    as [s|s| |s m e]; try discriminate Hfin.
  - exists 0. eexists. split; [reflexivity|]. split_all; try reflexivity.
    apply int_of_str_str_int.
  - pose proof (round_decimal_nearest m e 1 eq_refl) as Hn.
    unfold Py.round_float. unfold Py.decimal_of_binary in *.
    rewrite Z.mul_1_r in Hn. destruct Hn as [Hr Hn].
    set (r := Py.round_half_even _ _) in *.
    exists (if s then - r else r). eexists. split; [reflexivity|].
    split_all; try reflexivity; [apply int_of_str_str_int|].
    unfold is_nearest_int. destruct (0 <=? e).
    + destruct s; rewrite Hn; ring.
    + destruct s; [|now rewrite Z.mul_1_l in Hn].
      replace (- Z.pos m - - r * 2 ^ (- e)) with (- (1 * Z.pos m - r * 2 ^ (- e))) by ring.
      now rewrite Z.abs_opp.
Qed.

Lemma info_reports_guilds_and_latency_witness :
  Py.is_finite (Py.float_mul (latency (bot (Sample.ctx_of "!info"))) (Py.float_of_int 1000))
    = true /\
  exists ms e,
    info (Sample.ctx_of "!info") = ([Send 5 (StructuredEmbed e)], inr tt) /\
    lookup_field "Latency" (fields e) = Some (Py.str_int ms +:+ "ms").
Proof.
  split; [vm_compute; reflexivity|].
  destruct (info_reports_guilds_and_latency (Sample.ctx_of "!info"))
    as (ms & e & Hrun & _ & _ & _ & _ & Hl & _); [vm_compute; reflexivity|].
  exists ms, e. split; [exact Hrun|exact Hl].
Defined.

(** A latency that is infinite or NaN stays so when multiplied by 1000. *)
Lemma latency_not_finite l :
  Py.is_finite l = false -> Py.is_finite (Py.float_mul l (Py.float_of_int 1000)) = false.
Proof. destruct l as [s|s| |s m e]; try discriminate; reflexivity. Qed.

(** X3: when the latency times 1000 is not a finite float (the latency is
    infinite or NaN, as before a heartbeat has been timed, or the product
    overflows), info raises on [round] before it sends anything; "!info"
    then gets no reply, the framework logs the failure. *)
Theorem info_needs_a_finite_latency (help : Ctx -> Run unit) (b : Client) (m : Message) :
  Py.is_finite (Py.float_mul (latency b) (Py.float_of_int 1000)) = false ->
  exists x, (x = Py.ValueError \/ x = Py.OverflowError) /\
    info {| bot := b; message := m |} = ([], inl x) /\
    forall rest,
      user_eqb (author m) (user b) = false -> user_bot (author m) = false ->
      content m = "!info" +:+ rest -> at_boundary rest = true ->
      on_message help b m = ([LogError (command_invoke_error x)], inr tt).
Proof.
  intros Hfin.
  assert (Hrun : exists x, (x = Py.ValueError \/ x = Py.OverflowError) /\
    info {| bot := b; message := m |} = ([], inl x)).
  { unfold info. cbn [bot].
    destruct (Py.float_mul (latency b) (Py.float_of_int 1000))
      as [s|s| |s mm e]; try discriminate Hfin.
    - exists Py.OverflowError. split; [now right|reflexivity].
    - exists Py.ValueError. split; [now left|reflexivity]. }
  destruct Hrun as (x & Hx & Hrun). exists x. split; [exact Hx|]. split; [exact Hrun|].
  intros rest Hself Hbot Hc Hr.
  rewrite (on_message_invoke help b m "info" rest info_command
             Hself Hbot Hc eq_refl Hr (lookup_info help)).
  unfold invoke.
  change (parse_arguments (params info_command) rest
            (callback info_command {| bot := b; message := m |}))
    with (@inr command_error _ (info {| bot := b; message := m |})).
  cbv iota beta. now rewrite Hrun.
Qed.

Lemma info_needs_a_finite_latency_witness :
  Py.is_finite (Py.float_mul (latency Cases.fresh_client) (Py.float_of_int 1000)) = false /\
  sends (fst (on_message Sample.help_page Cases.fresh_client
                (Sample.says Sample.alice "!info"))) = [].
Proof.
  split; [reflexivity|].
  destruct (info_needs_a_finite_latency Sample.help_page Cases.fresh_client
              (Sample.says Sample.alice "!info") eq_refl) as (x & _ & _ & H).
  now rewrite (H "" eq_refl eq_refl eq_refl eq_refl).
Defined.

(** X4: greet answers with the first token after the command, character
    for character, whatever follows it; when nothing but whitespace
    follows the command, greet is not run, nothing is sent and the
    framework logs the missing [name]. *)
Theorem greet_uses_the_name_as_sent (help : Ctx -> Run unit) (bot : Client) (m : Message) :
  user_eqb (author m) (user bot) = false -> user_bot (author m) = false ->
  (forall gap name rest,
     is_gap gap = true -> is_token name = true -> is_plain name = true ->
     at_boundary rest = true ->
     content m = "!greet" +:+ gap +:+ name +:+ rest ->
     on_message help bot m =
       ([Send (channel m) (PlainText ("Hello, " +:+ name +:+ "! 👋"))], inr tt)) /\
  (forall blank,
     Py.all_chars Py.isspace blank = true ->
     content m = "!greet" +:+ blank ->
     on_message help bot m = ([LogError (missing_required_argument "name")], inr tt)).
Proof.
  intros Hself Hbot. split.
  - intros gap name rest Hg Hn _ Hr Hc.
    rewrite (on_message_invoke help bot m "greet" (gap +:+ name +:+ rest) greet_command
               Hself Hbot Hc eq_refl (gap_boundary _ _ Hg) (lookup_greet help)).
    unfold invoke.
    change (params greet_command) with [ {| param_name := "name"; converter := to_str |} ].
    rewrite parse_arguments_gap by (now apply gap_blank).
    rewrite (parse_arguments_bind {| param_name := "name"; converter := to_str |}
               _ name rest _ name Hn Hr eq_refl).
    reflexivity.
  - intros blank Hb Hc.
    assert (Hbound : at_boundary blank = true).
    { destruct blank as [|c blank]; [reflexivity|]. cbn [Py.all_chars] in Hb.
      now apply andb_true_iff in Hb as [Hb _]. }
    rewrite (on_message_invoke help bot m "greet" blank greet_command
               Hself Hbot Hc eq_refl Hbound (lookup_greet help)).
    unfold invoke.
    change (params greet_command) with [ {| param_name := "name"; converter := to_str |} ].
    rewrite parse_arguments_missing by (now apply skip_ws_all_blank).
    reflexivity.
Qed.

Lemma greet_uses_the_name_as_sent_witness :
  on_message Sample.help_page Sample.client (Sample.says Sample.alice "!greet  Ada Lovelace") =
    ([Send 5 (PlainText "Hello, Ada! 👋")], inr tt).
Proof.
  destruct (greet_uses_the_name_as_sent Sample.help_page Sample.client
              (Sample.says Sample.alice "!greet  Ada Lovelace") eq_refl eq_refl) as [H _].
  apply (H "  " "Ada" " Lovelace"); reflexivity.
Defined.

(** X5: the reply of add tells its arguments: two invocations with the
    same reply had the same pair of integers. *)
Theorem add_reply_determines_arguments (a b a' b' : Z) :
  sum_text a b = sum_text a' b' -> a = a' /\ b = b'.
Proof.
  unfold sum_text. intros H.
  assert (H1 := f_equal get_word H).
  rewrite !get_word_str_int in H1 by reflexivity.
  injection H1 as Ha Hrest. apply str_int_inj in Ha. split; [exact Ha|].
  change (Py.str_int b +:+ " = " +:+ Py.str_int (a + b) =
          Py.str_int b' +:+ " = " +:+ Py.str_int (a' + b')) in Hrest.
  assert (H2 := f_equal get_word Hrest).
  rewrite !get_word_str_int in H2 by reflexivity.
  injection H2 as Hb _. now apply str_int_inj in Hb.
Qed.

Lemma add_reply_determines_arguments_witness :
  sum_text 2 3 = sum_text (1 + 1) (4 - 1) /\ 2 = 1 + 1 /\ 3 = 4 - 1.
Proof.
  split; [reflexivity|].
  apply (add_reply_determines_arguments 2 3 (1 + 1) (4 - 1)). reflexivity.
Defined.

(** X6: whatever follows "!add", the outcome is one of two: the sum of
    two bound integers is sent, or nothing is sent and the framework logs
    a missing or bad argument on [num1] or [num2]; add never answers a
    malformed invocation. *)
Theorem add_answers_or_stays_silent (help : Ctx -> Run unit) (bot : Client) (m : Message)
    (rest : string) :
  user_eqb (author m) (user bot) = false -> user_bot (author m) = false ->
  content m = "!add" +:+ rest -> at_boundary rest = true -> is_plain rest = true ->
  (exists a b,
     on_message help bot m = ([Send (channel m) (PlainText (sum_text a b))], inr tt)) \/
  (exists e,
     on_message help bot m = ([LogError e], inr tt) /\
     (error_class e = MissingRequiredArgument \/ error_class e = BadArgument) /\
     (error_param e = Some "num1" \/ error_param e = Some "num2")).
Proof.
  intros Hself Hbot Hc Hr _.
  rewrite (on_message_invoke help bot m "add" rest add_command
             Hself Hbot Hc eq_refl Hr (lookup_add help)).
  unfold invoke.
  set (ctx := {| Commands.bot := bot; message := m |}).
  pose proof (parse_arguments_outcome (params add_command)
                (fun body => exists a b, body = add ctx a b) rest
                (callback add_command ctx)) as Hp.
  destruct (parse_arguments (params add_command) rest (callback add_command ctx))
    as [e|body].
  - right. exists e. split; [reflexivity|].
    destruct Hp as (p & Hin & He); [intros a b; now exists a, b|].
    cbn in Hin. destruct Hin as [<- | [<- | []]]; destruct He as [-> | ->]; cbn; auto.
  - left. destruct Hp as (a & b & ->); [intros a b; now exists a, b|].
    exists a, b. reflexivity.
Qed.

Lemma add_answers_or_stays_silent_witness :
  (exists a b,
     on_message Sample.help_page Sample.client (Sample.says Sample.alice "!add 2 x") =
       ([Send 5 (PlainText (sum_text a b))], inr tt)) \/
  (exists e,
     on_message Sample.help_page Sample.client (Sample.says Sample.alice "!add 2 x") =
       ([LogError e], inr tt) /\
     (error_class e = MissingRequiredArgument \/ error_class e = BadArgument) /\
     (error_param e = Some "num1" \/ error_param e = Some "num2")).
Proof.
  apply (add_answers_or_stays_silent Sample.help_page Sample.client
           (Sample.says Sample.alice "!add 2 x") " 2 x"); reflexivity.
Defined.

(** X7: the reply of add depends neither on how much whitespace
    separates the tokens nor on what follows the second number. *)
Theorem add_ignores_spacing_and_extra_tokens (help : Ctx -> Run unit) (bot : Client)
    (m : Message) (gap1 gap2 ta tb rest : string) (a b : Z) :
  user_eqb (author m) (user bot) = false -> user_bot (author m) = false ->
  is_gap gap1 = true -> is_gap gap2 = true ->
  is_token ta = true -> is_token tb = true -> at_boundary rest = true ->
  Py.int_of_str ta = Some a -> Py.int_of_str tb = Some b ->
  content m = "!add" +:+ gap1 +:+ ta +:+ gap2 +:+ tb +:+ rest ->
  on_message help bot m = ([Send (channel m) (PlainText (sum_text a b))], inr tt).
Proof.
  intros Hself Hbot Hg1 Hg2 Hta Htb Hr Ha Hb Hc.
  rewrite (on_message_invoke help bot m "add" (gap1 +:+ ta +:+ gap2 +:+ tb +:+ rest)
             add_command Hself Hbot Hc eq_refl (gap_boundary _ _ Hg1) (lookup_add help)).
  unfold invoke.
  change (params add_command) with
    [ {| param_name := "num1"; converter := to_int |};
      {| param_name := "num2"; converter := to_int |} ].
  rewrite parse_arguments_gap by (now apply gap_blank).
  rewrite (parse_arguments_bind {| param_name := "num1"; converter := to_int |}
             _ ta (gap2 +:+ tb +:+ rest) _ a Hta (gap_boundary _ _ Hg2) Ha).
  rewrite parse_arguments_gap by (now apply gap_blank).
  rewrite (parse_arguments_bind {| param_name := "num2"; converter := to_int |}
             _ tb rest _ b Htb Hr Hb).
  reflexivity.
Qed.

Lemma add_ignores_spacing_and_extra_tokens_witness :
  on_message Sample.help_page Sample.client
    (Sample.says Sample.alice "!add   40  2 and more") =
    ([Send 5 (PlainText "40 + 2 = 42")], inr tt).
Proof.
  apply (add_ignores_spacing_and_extra_tokens Sample.help_page Sample.client
           (Sample.says Sample.alice "!add   40  2 and more")
           "   " "  " "40" "2" " and more" 40 2); reflexivity.
Defined.

(** X8: whatever follows "!divide", exactly one plain text reply is sent:
    the usage hint (an argument is missing), the request for valid
    numbers (a token is not a float), the zero division text or the
    quotient line. *)
Theorem divide_always_answers (help : Ctx -> Run unit) (bot : Client) (m : Message)
    (rest : string) :
  user_eqb (author m) (user bot) = false -> user_bot (author m) = false ->
  content m = "!divide" +:+ rest -> at_boundary rest = true -> is_plain rest = true ->
  exists text,
    on_message help bot m = ([Send (channel m) (PlainText text)], inr tt) /\
    (text = usage_hint \/ text = valid_numbers \/ text = zero_division_text \/
     exists a b, Py.float_eqb b (Py.float_of_int 0) = false /\
       text = quotient_text a b (SFdiv Py.float_prec Py.float_emax a b)).
Proof.
  intros Hself Hbot Hc Hr _.
  rewrite (on_message_invoke help bot m "divide" rest divide_command
             Hself Hbot Hc eq_refl Hr (lookup_divide help)).
  unfold invoke.
  set (ctx := {| Commands.bot := bot; message := m |}).
  pose proof (parse_arguments_outcome (params divide_command)
                (fun body => exists a b, body = divide ctx a b) rest
                (callback divide_command ctx)) as Hp.
  destruct (parse_arguments (params divide_command) rest (callback divide_command ctx))
    as [e|body].
  - rewrite (dispatch_error_handled divide_command ctx e divide_error eq_refl).
    destruct (divide_error_binding ctx _ e (Hp ltac:(intros a b; now exists a, b)))
      as [-> | ->]; eexists; (split; [reflexivity|]); auto.
  - destruct Hp as (a & b & ->); [intros a b; now exists a, b|].
    rewrite divide_run. cbn [catch].
    destruct (Py.float_eqb b (Py.float_of_int 0)) eqn:Hz;
      eexists; (split; [reflexivity|]); [auto|].
    right; right; right. now exists a, b.
Qed.

Lemma divide_always_answers_witness :
  exists text,
    on_message Sample.help_page Sample.client (Sample.says Sample.alice "!divide 1 two") =
      ([Send 5 (PlainText text)], inr tt).
Proof.
  destruct (divide_always_answers Sample.help_page Sample.client
              (Sample.says Sample.alice "!divide 1 two") " 1 two"
              eq_refl eq_refl eq_refl eq_refl eq_refl) as (text & H & _).
  now exists text.
Defined.

Lemma quotient_text_not_ascii a b q :
  Py.all_chars is_ascii (quotient_text a b q) = false.
Proof.
  unfold quotient_text. rewrite all_chars_app.
  change (Py.all_chars is_ascii (" ÷ " +:+ Py.float_repr b +:+ " = " +:+ Py.format_fixed 2 q))
    with false.
  apply andb_false_r.
Qed.

(** X9: the zero division text is sent exactly when the divisor equals
    zero; no quotient line can be mistaken for it. *)
Theorem zero_division_text_iff_zero (ctx : Ctx) (a b : Py.float) :
  divide ctx a b = ([Send (channel (message ctx)) (PlainText zero_division_text)], inr tt)
  <-> Py.float_eqb b (Py.float_of_int 0) = true.
Proof.
  rewrite divide_run. destruct (Py.float_eqb b (Py.float_of_int 0)); split;
    try reflexivity; try discriminate.
  intros H. injection H as H.
  pose proof (quotient_text_not_ascii a b (SFdiv Py.float_prec Py.float_emax a b)) as Hq.
  rewrite H in Hq. discriminate Hq.
Qed.

(** X10: a finite quotient that is not zero is printed as the multiple of
    0.01 nearest to it: the text after " = " is the sign, the whole part
    and two decimals of some R hundredths, R being at most half a
    hundredth away from the quotient (and equal to it when the quotient
    is an integer); both parts read back with [int]. *)
Theorem quotient_is_rounded_to_nearest (ctx : Ctx) (a b : Py.float)
    (s : bool) (m : positive) (e : Z) :
  Py.float_eqb b (Py.float_of_int 0) = false ->
  SFdiv Py.float_prec Py.float_emax a b = S754_finite s m e ->
  exists R,
    divide ctx a b =
      ([Send (channel (message ctx))
          (PlainText (Py.float_repr a +:+ " ÷ " +:+ Py.float_repr b +:+ " = " +:+
                      Py.sign_str s +:+ Py.str_int (R / 100) +:+ "." +:+
                      Py.zfill 2 (Py.str_int (R mod 100))))], inr tt) /\
    0 <= R /\ is_nearest_hundredth m e R /\
    Py.int_of_str (Py.str_int (R / 100)) = Some (R / 100) /\
    Py.int_of_str (Py.zfill 2 (Py.str_int (R mod 100))) = Some (R mod 100).
Proof.
  intros Hz Hq.
  pose proof (round_decimal_nearest m e 100 eq_refl) as Hn.
  unfold Py.decimal_of_binary in Hn. destruct Hn as [HR Hn].
  set (R := Py.round_half_even _ _) in *.
  exists R. split_all.
  - rewrite divide_run, Hz, Hq. reflexivity.
  - exact HR.
  - exact Hn.
  - apply int_of_str_str_int.
  - apply two_digits_read_back. apply Z.mod_pos_bound. reflexivity.
Qed.

Lemma quotient_is_rounded_to_nearest_witness :
  Py.float_eqb (Py.float_of_int 3) (Py.float_of_int 0) = false /\
  SFdiv Py.float_prec Py.float_emax Sample.two (Py.float_of_int 3)
    = S754_finite false 6004799503160661 (-53) /\
  exists R,
    divide (Sample.ctx_of "!divide 2 3") Sample.two (Py.float_of_int 3) =
      ([Send 5
          (PlainText ("2.0 ÷ 3.0 = " +:+ Py.str_int (R / 100) +:+ "." +:+
                      Py.zfill 2 (Py.str_int (R mod 100))))], inr tt) /\
    is_nearest_hundredth 6004799503160661 (-53) R.
Proof.
  split; [reflexivity|]. split; [vm_compute; reflexivity|].
  destruct (quotient_is_rounded_to_nearest (Sample.ctx_of "!divide 2 3")
              Sample.two (Py.float_of_int 3) false 6004799503160661 (-53)
              eq_refl ltac:(vm_compute; reflexivity)) as (R & H & _ & Hn & _).
  exists R. split; [exact H|exact Hn].
Defined.

(** The six commands of bot.py end normally with at most one reply. *)
Lemma invoke_registered c ctx view :
  c = ping_command \/ c = info_command \/ c = greet_command \/
  c = add_command \/ c = divide_command \/ c = serverinfo_command ->
  at_most_one_reply (channel (message ctx)) (fst (invoke c ctx view)) /\
  snd (invoke c ctx view) = inr tt.
Proof.
  intros Hc. apply invoke_at_most_one.
  - destruct Hc as [-> | [-> | [-> | [-> | [-> | ->]]]]].
    + apply ping_once.
    + apply info_once.
    + apply greet_once.
    + apply add_once.
    + apply divide_once.
    + apply serverinfo_once.
  - intros h e Hh.
    destruct Hc as [-> | [-> | [-> | [-> | [-> | ->]]]]]; try discriminate Hh.
    injection Hh as <-. apply divide_error_at_most_one.
Qed.

(** X11: handling a message never raises and leaves at most one trace:
    nothing, one reply to the channel the message came from, or one
    logged error, never two replies (the built-in help command apart,
    whose page is the framework's). *)
Theorem one_message_one_reply_at_most (help : Ctx -> Run unit) (bot : Client) (m : Message) :
  invoked_with command_prefix (content m) <> Some "help" ->
  at_most_one_reply (channel m) (fst (on_message help bot m)) /\
  snd (on_message help bot m) = inr tt.
Proof.
  intros Hhelp. unfold on_message.
  destruct (user_eqb (author m) (user bot)); [split; [now left|reflexivity]|].
  destruct (String.eqb_spec (content m) "hello") as [Hh|_].
  - rewrite bind_emit. unfold process_commands. rewrite Hh.
    destruct (user_bot (author m)); (split; [|reflexivity]); right; left; now eexists.
  - rewrite bind_ret_l. unfold process_commands.
    destruct (user_bot (author m)); [split; [now left|reflexivity]|].
    unfold invoked_with in Hhelp.
    destruct (skip_string command_prefix (content m)) as [view|];
      [|split; [now left|reflexivity]].
    destruct (get_word view) as [n rest]. cbn [fst] in Hhelp.
    rewrite all_commands_lookup.
    repeat (case_decide;
      [apply (invoke_registered _ {| Commands.bot := bot; message := m |}); tauto|]).
    case_decide; [subst n; congruence|].
    destruct n; (split; [|reflexivity]); [now left|].
    right; right. now eexists.
Qed.

Lemma one_message_one_reply_at_most_witness :
  invoked_with command_prefix (content (Sample.says Sample.alice "!divide 1 0"))
    <> Some "help" /\
  at_most_one_reply 5
    (fst (on_message Sample.help_page Sample.client (Sample.says Sample.alice "!divide 1 0"))).
Proof.
  assert (H : invoked_with command_prefix (content (Sample.says Sample.alice "!divide 1 0"))
              <> Some "help") by discriminate.
  split; [exact H|].
  apply (one_message_one_reply_at_most Sample.help_page Sample.client
           (Sample.says Sample.alice "!divide 1 0") H).
Defined.

(** X12: a message of someone else that lacks the prefix is met with
    silence unless it is exactly "hello": no reply, no log, no error. *)
Theorem text_without_prefix_is_ignored (help : Ctx -> Run unit) (bot : Client) (m : Message) :
  user_eqb (author m) (user bot) = false ->
  skip_string command_prefix (content m) = None ->
  content m <> "hello" ->
  on_message help bot m = ([], inr tt).
Proof.
  intros Hself Hp Hh. rewrite (on_message_other help bot m Hself).
  destruct (String.eqb_spec (content m) "hello") as [Heq|_]; [contradiction|].
  rewrite bind_ret_l. unfold process_commands. rewrite Hp.
  now destruct (user_bot (author m)).
Qed.

Lemma text_without_prefix_is_ignored_witness :
  on_message Sample.help_page Sample.client (Sample.says Sample.alice "hello !ping") =
    ([], inr tt).
Proof.
  apply (text_without_prefix_is_ignored Sample.help_page Sample.client
           (Sample.says Sample.alice "hello !ping")); [reflexivity|reflexivity|discriminate].
Defined.

(** X13: serverinfo replies exactly when the message comes from a guild
    whose owner is known; "!serverinfo" in a private channel raises
    [AttributeError] before anything is sent, the framework logs it and
    the channel gets no reply. *)
Theorem serverinfo_needs_a_guild (help : Ctx -> Run unit) (bot : Client) (m : Message) :
  (sends (fst (serverinfo {| Commands.bot := bot; message := m |})) <> [] <->
     exists g o, guild m = Some g /\ owner g = Some o) /\
  (forall rest,
     user_eqb (author m) (user bot) = false -> user_bot (author m) = false ->
     content m = "!serverinfo" +:+ rest -> at_boundary rest = true ->
     guild m = None ->
     on_message help bot m =
       ([LogError (command_invoke_error Py.AttributeError)], inr tt)).
Proof.
  split.
  - unfold serverinfo, ctx_guild. cbn [message].
    destruct (guild m) as [g|]; cbn [attr].
    + rewrite bind_ret_l. destruct (owner g) as [o|] eqn:Ho; cbn [attr].
      * rewrite bind_ret_l. split; [intros _; now exists g, o|discriminate].
      * split; [intros H; now contradiction H|].
        intros (g' & o & [= <-] & Ho'). congruence.
    + split; [intros H; now contradiction H|]. intros (g & o & Hg & _). discriminate Hg.
  - intros rest Hself Hbot Hc Hr Hg.
    rewrite (on_message_invoke help bot m "serverinfo" rest serverinfo_command
               Hself Hbot Hc eq_refl Hr (lookup_serverinfo help)).
    now apply invoke_serverinfo_without_guild.
Qed.

Lemma serverinfo_needs_a_guild_witness :
  guild (Cases.whispers "!serverinfo") = None /\
  on_message Sample.help_page Sample.client (Cases.whispers "!serverinfo") =
    ([LogError (command_invoke_error Py.AttributeError)], inr tt).
Proof.
  split; [reflexivity|].
  destruct (serverinfo_needs_a_guild Sample.help_page Sample.client
              (Cases.whispers "!serverinfo")) as [_ H].
  apply (H ""); reflexivity.
Defined.

(** X14: on_ready only prints: the line of the account, then the line of
    the guild count, whose number reads back as the number of guilds the
    bot is in; it sends nothing and does not connect. *)
Theorem on_ready_prints_the_guild_count (str_user : option User -> string) (bot : Client) :
  exists count,
    on_ready str_user bot =
      ([Print (str_user (user bot) +:+ " has connected to Discord!");
        Print ("Bot is in " +:+ count +:+ " guilds")], inr tt) /\
    is_token count = true /\
    Py.int_of_str count = Some (Z.of_nat (length (guilds bot))) /\
    sends (fst (on_ready str_user bot)) = [].
Proof.
  exists (Py.str_int (Z.of_nat (length (guilds bot)))).
  split_all; try reflexivity.
  - destruct (str_int_token (Z.of_nat (length (guilds bot)))) as [Hne Hall].
    unfold is_token. destruct (Py.str_int _); [congruence|exact Hall].
  - apply int_of_str_str_int.
Qed.

(** X15: in a guild whose owner is known, serverinfo replies with one
    embed; its "Members" field is the member count of the guild, its
    "Created At" field the creation date as YYYY-MM-DD, its thumbnail the
    url of the guild icon, or none without an icon. *)
Theorem serverinfo_embed (ctx : Ctx) (g : Guild) (o : Member) :
  ctx_guild ctx = Some g -> owner g = Some o ->
  exists e,
    serverinfo ctx = ([Send (channel (message ctx)) (StructuredEmbed e)], inr tt) /\
    lookup_field "Members" (fields e) = Some (Py.str_int (member_count g)) /\
    Py.int_of_str (Py.str_int (member_count g)) = Some (member_count g) /\
    lookup_field "Created At" (fields e) = Some (Datetime.strftime_Ymd (created_at g)) /\
    (Datetime.valid (created_at g) = true ->
       Datetime.is_iso_date (Datetime.strftime_Ymd (created_at g)) = true) /\
    thumbnail e = match icon g with Some asset => Some (url asset) | None => None end.
Proof.
  intros Hg Ho. unfold serverinfo. rewrite Hg. cbn [attr]. rewrite bind_ret_l.
  rewrite Ho. cbn [attr]. rewrite bind_ret_l.
  eexists. split; [reflexivity|].
  repeat apply conj; try reflexivity.
  - apply int_of_str_str_int.
  - apply strftime_iso.
Qed.

Lemma serverinfo_embed_witness :
  ctx_guild (Sample.ctx_of "!serverinfo") = Some Sample.home /\
  owner Sample.home = Some {| mention := "<@2002>" |} /\
  exists e,
    serverinfo (Sample.ctx_of "!serverinfo") = ([Send 5 (StructuredEmbed e)], inr tt) /\
    lookup_field "Members" (fields e) = Some "12" /\
    lookup_field "Created At" (fields e) = Some "2021-03-09" /\
    thumbnail e = Some "https://cdn.example/icon.png".
Proof.
  split; [reflexivity|]. split; [reflexivity|].
  destruct (serverinfo_embed (Sample.ctx_of "!serverinfo") Sample.home
              {| mention := "<@2002>" |} eq_refl eq_refl)
    as (e & Hrun & Hm & _ & Hc & _ & Ht).
  exists e. split; [exact Hrun|]. split; [exact Hm|]. split; [exact Hc|]. exact Ht.
Defined.
